(** * Verification of the Batch-job notification formatter

    Source: [scaled-execution-containers/cdk/lambda/format-notification.py].

    The Lambda [handler] reads a job-status event (a JSON document decoded
    into Python values), renders an e-mail subject and body with f-strings
    and hands both to [sns.publish].  The embedding below keeps the dynamic
    typing of the source: the event is an arbitrary Python value, subscripts
    and [.get] calls may raise, and the outbound call is recorded in a trace.

    Python [str] values are modelled as [string] holding their UTF-8 bytes;
    substring containment on the bytes coincides with containment on code
    points. *)

From Stdlib Require Import String Ascii List ZArith Bool Lia.
From Stdlib Require Import DecimalString DecimalZ DecimalPos.
Import ListNotations.
Local Open Scope string_scope.
Set Warnings "-register-all,-notation-for-abbreviation".

(** ** Strings *)

Module Str.

Definition nl : string := String "010"%char "".

(** Python's [sub in s]. *)
Definition contains (s sub : string) : Prop :=
  exists pre post, s = pre ++ sub ++ post.

(** [s.startswith(x)], as a proposition and as a test. *)
Definition starts (s x : string) : Prop := exists post, s = x ++ post.

Fixpoint startsb (s x : string) {struct x} : bool :=
  match x with
  | EmptyString => true
  | String c x' =>
      match s with
      | EmptyString => false
      | String d s' => Ascii.eqb c d && startsb s' x'
      end
  end.

Fixpoint containsb (s sub : string) : bool :=
  startsb s sub ||
  match s with
  | EmptyString => false
  | String _ s' => containsb s' sub
  end.

(** Membership of a character. *)
Fixpoint mem (c : ascii) (s : string) : bool :=
  match s with
  | EmptyString => false
  | String c' s' => Ascii.eqb c c' || mem c s'
  end.

(** [sep.join(ls)]. *)
Definition join (sep : string) (ls : list string) : string := String.concat sep ls.

(** The text of a triple-quoted literal, given line by line: every line,
    the last one included, is closed by a newline. *)
Fixpoint lines (ls : list string) : string :=
  match ls with
  | [] => ""
  | l :: ls' => l ++ nl ++ lines ls'
  end.

End Str.

(** * The Lambda module *)

Module Lambda.

(** ** Python values *)

Section Runtime.

(** Two pieces of the Python runtime stay abstract: the float type with its
    [repr], and [repr] on [str] (quoting and escaping), which [str()] of a
    list or dict applies to the strings inside it. *)
Variable float : Type.
Variable float_repr : float -> string.
Variable str_repr : string -> string.

(** What [json.loads] produces.  A dict is kept as its items in insertion
    order (keys pairwise distinct); lookup takes the first match. *)
Inductive pyval : Type :=
| PNone
| PBool (b : bool)
| PInt (n : Z)
| PFloat (x : float)
| PStr (s : string)
| PList (items : list pyval)
| PDict (items : list (string * pyval)).

Fixpoint dict_lookup (k : string) (d : list (string * pyval)) : option pyval :=
  match d with
  | [] => None
  | (k', v) :: d' => if String.eqb k k' then Some v else dict_lookup k d'
  end.

(** [str(n)] for an int: decimal digits with a leading minus sign. *)
Definition int_str (n : Z) : string := NilZero.string_of_int (Z.to_int n).

Fixpoint py_repr (v : pyval) : string :=
  match v with
  | PNone => "None"
  | PBool true => "True"
  | PBool false => "False"
  | PInt n => int_str n
  | PFloat x => float_repr x
  | PStr s => str_repr s
  | PList items => "[" ++ Str.join ", " (map py_repr items) ++ "]"
  | PDict items =>
      "{" ++ Str.join ", "
               (map (fun kv => str_repr (fst kv) ++ ": " ++ py_repr (snd kv)) items)
          ++ "}"
  end.

(** [str(v)], which is also what a bare [{v}] field of an f-string
    inserts. *)
Definition py_str (v : pyval) : string :=
  match v with
  | PStr s => s
  | _ => py_repr v
  end.

(** [v == w] where [w] is a str literal. *)
Definition py_eq_str (v : pyval) (w : string) : bool :=
  match v with
  | PStr s => String.eqb s w
  | _ => false
  end.

(** ** Exceptions, outbound calls and the handler monad *)

Inductive exn : Type :=
| KeyError (key : string)      (* [d[k]] on a dict without [k] *)
| TypeError                    (* [v[k]] on a value that is not a dict *)
| AttributeError               (* [v.get(...)] on a value that is not a dict *)
| ServiceError (code : string) (* whatever [sns.publish] raises *).

Inductive outcome (A : Type) : Type :=
| Returned (a : A)
| Raised (e : exn).
Arguments Returned {A} a.
Arguments Raised {A} e.

(** One [sns.publish(TopicArn=..., Subject=..., Message=...)] call. *)
Record publish_call : Type := Publish {
  TopicArn : string;
  Subject : string;
  Message : string;
}.

(** The only effect of the module is calling the SNS client, so the state
    threaded through the handler is the trace of calls made so far. *)
Definition trace : Type := list publish_call.

Definition M (A : Type) : Type := trace -> outcome A * trace.

Definition ret {A} (a : A) : M A := fun t => (Returned a, t).

Definition raise {A} (e : exn) : M A := fun t => (Raised e, t).

Definition bind {A B} (m : M A) (k : A -> M B) : M B :=
  fun t =>
    match m t with
    | (Returned a, t') => k a t'
    | (Raised e, t') => (Raised e, t')
    end.

Notation "x <- m ;; k" := (bind m (fun x => k))
  (at level 61, m at next level, right associativity).
Notation "' pat <- m ;; k" := (bind m (fun x => match x with pat => k end))
  (at level 61, pat pattern, m at next level, right associativity).

(** [v[k]] with a str key. *)
Definition getitem (v : pyval) (k : string) : M pyval :=
  match v with
  | PDict d =>
      match dict_lookup k d with
      | Some x => ret x
      | None => raise (KeyError k)
      end
  | _ => raise TypeError
  end.

(** [v.get(k, default)]. *)
Definition get (v : pyval) (k : string) (default : pyval) : M pyval :=
  match v with
  | PDict d =>
      match dict_lookup k d with
      | Some x => ret x
      | None => ret default
      end
  | _ => raise AttributeError
  end.

(** ** The module *)

(** [TOPIC_ARN = os.environ['TOPIC_ARN']], read once at import. *)
Variable TOPIC_ARN : string.

(** What the SNS client answers to a [publish] call: a response, or an
    exception of its own. *)
Inductive sns_reply : Type :=
| Delivered (response : pyval)
| Rejected (code : string).

(** The SNS service: its answer to a call, given the calls made before. *)
Variable sns : trace -> publish_call -> sns_reply.

(** The Lambda context object; the handler never touches it. *)
Variable lambda_context : Type.

Definition sns_publish (topic subject message : string) : M pyval :=
  fun t =>
    let c := Publish topic subject message in
    match sns t c with
    | Delivered response => (Returned response, (t ++ [c])%list)
    | Rejected code => (Raised (ServiceError code), (t ++ [c])%list)
    end.

(** The f-strings of the [SUCCEEDED] branch (lines 20-35). *)
Definition succeeded_subject (job_name : pyval) : string :=
  "✅ AWS Transform Job Completed: " ++ py_str job_name.

Definition succeeded_message
    (job_name job_id status exit_code region time : pyval) : string :=
  Str.lines
    [ "✅ AWS Transform Job Completed Successfully";
      "";
      "Job Name: " ++ py_str job_name;
      "Job ID: " ++ py_str job_id;
      "Status: " ++ py_str status;
      "Exit Code: " ++ py_str exit_code;
      "Region: " ++ py_str region;
      "Completed At: " ++ py_str time;
      "";
      "View logs:";
      "https://console.aws.amazon.com/cloudwatch/home?region=" ++ py_str region
        ++ "#logsV2:log-groups/log-group/$252Faws$252Fbatch$252Fatx-transform";
      "";
      "Check job status:";
      "aws batch describe-jobs --jobs " ++ py_str job_id
        ++ " --region " ++ py_str region ].

(** The f-strings of the [else] branch (lines 38-57). *)
Definition failed_subject (job_name : pyval) : string :=
  "❌ AWS Transform Job Failed: " ++ py_str job_name.

Definition failed_message
    (job_name job_id status exit_code status_reason region time : pyval)
    : string :=
  Str.lines
    [ "❌ AWS Transform Job Failed";
      "";
      "Job Name: " ++ py_str job_name;
      "Job ID: " ++ py_str job_id;
      "Status: " ++ py_str status;
      "Exit Code: " ++ py_str exit_code;
      "Reason: " ++ py_str status_reason;
      "Region: " ++ py_str region;
      "Failed At: " ++ py_str time;
      "";
      "View logs:";
      "https://console.aws.amazon.com/cloudwatch/home?region=" ++ py_str region
        ++ "#logsV2:log-groups/log-group/$252Faws$252Fbatch$252Fatx-transform";
      "";
      "Check job status:";
      "aws batch describe-jobs --jobs " ++ py_str job_id
        ++ " --region " ++ py_str region;
      "";
      "Troubleshooting:";
      "https://github.com/aws-samples/aws-transform-custom-samples/blob/main/scaled-execution-containers/docs/TROUBLESHOOTING.md" ].

Definition handler (event : pyval) (context : lambda_context) : M pyval :=
  detail <- getitem event "detail" ;;
  status <- getitem detail "status" ;;
  job_name <- getitem detail "jobName" ;;
  job_id <- getitem detail "jobId" ;;
  region <- getitem event "region" ;;
  time <- getitem event "time" ;;
  container <- get detail "container" (PDict []) ;;
  exit_code <- get container "exitCode" (PStr "N/A") ;;
  '(subject, message) <-
    (if py_eq_str status "SUCCEEDED" then
       ret (succeeded_subject job_name,
            succeeded_message job_name job_id status exit_code region time)
     else
       status_reason <- get detail "statusReason" (PStr "Unknown") ;;
       ret (failed_subject job_name,
            failed_message job_name job_id status exit_code status_reason
              region time)) ;;
  _ <- sns_publish TOPIC_ARN subject message ;;
  ret (PDict [("statusCode", PInt 200)]).

End Runtime.

Arguments PNone {float}.
Arguments PBool {float} b.
Arguments PInt {float} n.
Arguments PFloat {float} x.
Arguments PStr {float} s.
Arguments PList {float} items.
Arguments PDict {float} items.
Arguments Returned {A} a.
Arguments Raised {A} e.
Arguments Delivered {float} response.
Arguments Rejected {float} code.
Arguments dict_lookup {float} k d.
Arguments py_repr {float} float_repr str_repr v.
Arguments py_str {float} float_repr str_repr v.
Arguments py_eq_str {float} v w.
Arguments getitem {float} v k _.
Arguments get {float} v k default _.
Arguments sns_publish {float} sns topic subject message _.
Arguments succeeded_subject {float} float_repr str_repr job_name.
Arguments succeeded_message {float} float_repr str_repr
  job_name job_id status exit_code region time.
Arguments failed_subject {float} float_repr str_repr job_name.
Arguments failed_message {float} float_repr str_repr
  job_name job_id status exit_code status_reason region time.
Arguments handler {float} float_repr str_repr TOPIC_ARN sns {lambda_context}
  event context _.

End Lambda.

Import Lambda.

(** ** Vocabulary of the specification *)

Section Vocabulary.

Variable float : Type.

(** [field v k]: the entry [k] of the JSON object [v], if [v] is an object
    and has one. *)
Definition field (v : pyval float) (k : string) : option (pyval float) :=
  match v with
  | PDict d => dict_lookup k d
  | _ => None
  end.

(** [detail.container.exitCode], absent when any step of the path is. *)
Definition exit_code_field (detail : pyval float) : option (pyval float) :=
  match field detail "container" with
  | Some container => field container "exitCode"
  | None => None
  end.

(** The exit code shown in the message: the event's, or ["N/A"]. *)
Definition resolved_exit_code (detail : pyval float) : pyval float :=
  match exit_code_field detail with
  | Some v => v
  | None => PStr "N/A"
  end.

(** The reason shown in a failure message: the event's, or ["Unknown"]. *)
Definition resolved_status_reason (detail : pyval float) : pyval float :=
  match field detail "statusReason" with
  | Some v => v
  | None => PStr "Unknown"
  end.

(** [detail.container], when present, is an object (the inbound event
    shape: [container?: { exitCode?: number }]). *)
Definition container_shape (detail : pyval float) : bool :=
  match field detail "container" with
  | None => true
  | Some (PDict _) => true
  | Some _ => false
  end.

(** The event is a JSON object whose [detail], when present, is one too. *)
Definition event_shape (event : pyval float) : bool :=
  match event with
  | PDict d =>
      match dict_lookup "detail" d with
      | None => true
      | Some (PDict _) => true
      | Some _ => false
      end
  | _ => false
  end.

(** The five required fields, as the path each is read from. *)
Definition required_fields (event : pyval float) : list (option (pyval float)) :=
  let detail := field event "detail" in
  let in_detail k :=
    match detail with Some d => field d k | None => None end in
  [ in_detail "status"; in_detail "jobName"; in_detail "jobId";
    field event "region"; field event "time" ].

Definition is_absent (o : option (pyval float)) : bool :=
  match o with None => true | Some _ => false end.

Definition missing_required (event : pyval float) : bool :=
  existsb is_absent (required_fields event).

(** The exceptions a subscript [v[k]] raises: [KeyError] on a dict without
    the key, [TypeError] on a value that is not a dict. *)
Definition lookup_error (e : exn) : bool :=
  match e with
  | KeyError _ | TypeError => true
  | AttributeError | ServiceError _ => false
  end.

Definition required_keys : list string :=
  [ "detail"; "status"; "jobName"; "jobId"; "region"; "time" ].

(** The marks that open the subject and the headline of each branch. *)
Definition success_marker : string := "✅".
Definition failure_marker : string := "❌".

Definition troubleshooting_link : string :=
  "https://github.com/aws-samples/aws-transform-custom-samples/blob/main/scaled-execution-containers/docs/TROUBLESHOOTING.md".

Definition log_console_link (region : string) : string :=
  "https://console.aws.amazon.com/cloudwatch/home?region=" ++ region
    ++ "#logsV2:log-groups/log-group/$252Faws$252Fbatch$252Fatx-transform".

Definition log_group_path : string :=
  "log-groups/log-group/$252Faws$252Fbatch$252Fatx-transform".

(** [{'statusCode': 200}]. *)
Definition status_code_200 : pyval float := PDict [("statusCode", PInt 200)].

(** What the handler does with the answer of [sns.publish]: the response is
    dropped, an exception passes through. *)
Definition after_publish (r : sns_reply float) : outcome (pyval float) :=
  match r with
  | Delivered _ => Returned status_code_200
  | Rejected code => Raised (ServiceError code)
  end.

(** A run of the handler that, started on trace [t], makes the one call
    [c] and ends as the answer of SNS decides. *)
Definition publishes (sns : trace -> publish_call -> sns_reply float)
    (t : trace) (c : publish_call) (r : outcome (pyval float) * trace) : Prop :=
  r = (after_publish (sns t c), (t ++ [c])%list).

(** Text built from pieces, each closed by a separator character. *)
Fixpoint sep_join (chunks : list (string * ascii)) (last : string) : string :=
  match chunks with
  | [] => last
  | (x, c) :: chunks' => x ++ String c (sep_join chunks' last)
  end.

(** The lookups of lines 11-16 in the order the handler makes them, each
    with what it finds. *)
Definition lookup_order (event : pyval float)
    : list (string * option (pyval float)) :=
  ("detail", field event "detail")
    :: combine [ "status"; "jobName"; "jobId"; "region"; "time" ]
         (required_fields event).

(** The key of the first of these lookups that finds nothing. *)
Definition first_missing (event : pyval float) : option string :=
  option_map fst (find (fun p => is_absent (snd p)) (lookup_order event)).

(** The events on which the handler gets as far as the publish call: all
    required fields are there, and [detail.container] is an object or
    absent. *)
Definition well_formed (event : pyval float) : bool :=
  negb (missing_required event) &&
  match field event "detail" with
  | Some detail => container_shape detail
  | None => false
  end.

End Vocabulary.

Arguments field {float} v k.
Arguments exit_code_field {float} detail.
Arguments resolved_exit_code {float} detail.
Arguments resolved_status_reason {float} detail.
Arguments container_shape {float} detail.
Arguments event_shape {float} event.
Arguments required_fields {float} event.
Arguments missing_required {float} event.
Arguments status_code_200 {float}.
Arguments after_publish {float} r.
Arguments publishes {float} sns t c r.
Arguments lookup_order {float} event.
Arguments first_missing {float} event.
Arguments well_formed {float} event.

(** ** A concrete deployment, for examples *)

Module Demo.

(** Floats are given by their printed form; [repr] of a str is rendered
    with single quotes and no escapes. *)
Definition float : Type := string.
Definition float_repr (x : float) : string := x.
Definition str_repr (s : string) : string := "'" ++ s ++ "'".

Definition TOPIC_ARN : string := "arn:aws:sns:us-east-1:123456789012:atx-notifications".

Definition sns_ok (t : trace) (c : publish_call) : sns_reply float :=
  Delivered (PDict [("MessageId", PStr "m-1")]).

Definition sns_down (t : trace) (c : publish_call) : sns_reply float :=
  Rejected "ServiceUnavailable".

Definition run (sns : trace -> publish_call -> sns_reply float)
    (event : pyval float) : outcome (pyval float) * trace :=
  handler float_repr str_repr TOPIC_ARN sns event tt [].

(** The end-to-end example of the specification. *)
Definition succeeded_detail : pyval float :=
  PDict [ ("status", PStr "SUCCEEDED"); ("jobName", PStr "job-42");
          ("jobId", PStr "abc-123"); ("container", PDict [("exitCode", PInt 0)]) ].
Definition succeeded_event : pyval float :=
  PDict [ ("region", PStr "us-east-1");
          ("time", PStr "2024-01-01T00:00:00Z");
          ("detail", succeeded_detail) ].

Definition failed_detail : pyval float :=
  PDict [ ("status", PStr "FAILED"); ("jobName", PStr "job-43");
          ("jobId", PStr "abc-124");
          ("statusReason", PStr "Essential container in task exited");
          ("container", PDict [("exitCode", PInt 1)]) ].
Definition failed_event : pyval float :=
  PDict [ ("region", PStr "eu-west-1");
          ("time", PStr "2024-01-02T00:00:00Z");
          ("detail", failed_detail) ].

(** A job that never started: no [container], no [statusReason]. *)
Definition bare_detail : pyval float :=
  PDict [ ("status", PStr "RUNNABLE"); ("jobName", PStr "job-44");
          ("jobId", PStr "abc-125") ].
Definition bare_event : pyval float :=
  PDict [ ("region", PStr "us-west-2");
          ("time", PStr "2024-01-03T00:00:00Z");
          ("detail", bare_detail) ].

(** An event without [detail.jobName]. *)
Definition nameless_event : pyval float :=
  PDict [ ("region", PStr "us-east-1");
          ("time", PStr "2024-01-01T00:00:00Z");
          ("detail", PDict [ ("status", PStr "SUCCEEDED"); ("jobId", PStr "abc-123") ]) ].

(** A succeeded job whose name is the troubleshooting URL. *)
Definition link_named_detail : pyval float :=
  PDict [ ("status", PStr "SUCCEEDED");
          ("jobName", PStr troubleshooting_link);
          ("jobId", PStr "abc-126") ].
Definition link_named_event : pyval float :=
  PDict [ ("region", PStr "us-east-1");
          ("time", PStr "2024-01-01T00:00:00Z");
          ("detail", link_named_detail) ].

(** A job whose [container] is [null]. *)
Definition null_container_event : pyval float :=
  PDict [ ("region", PStr "us-east-1");
          ("time", PStr "2024-01-01T00:00:00Z");
          ("detail", PDict [ ("status", PStr "FAILED"); ("jobName", PStr "job-45");
                             ("jobId", PStr "abc-127"); ("container", PNone) ]) ].

(** An event whose [detail] is a string. *)
Definition string_detail_event : pyval float :=
  PDict [ ("region", PStr "us-east-1"); ("detail", PStr "SUCCEEDED") ].

(** An event without [detail.jobId] and without [time]. *)
Definition two_missing_event : pyval float :=
  PDict [ ("region", PStr "us-east-1");
          ("detail", PDict [ ("status", PStr "FAILED"); ("jobName", PStr "job-46") ]) ].


End Demo.

(** * Facts about strings *)

Module StrFacts.

Import Str.

Lemma append_assoc (a b c : string) : (a ++ b) ++ c = a ++ b ++ c.
Proof.
  induction a as [|x a IH]; simpl; [reflexivity | now rewrite IH].
Qed.

Lemma append_nil_r (a : string) : a ++ "" = a.
Proof.
  induction a as [|x a IH]; simpl; [reflexivity | now rewrite IH].
Qed.

(** Two splittings of one string: one cut lies before the other. *)
Lemma append_eq_append (a b c d : string) :
  a ++ b = c ++ d ->
  exists m, (a = c ++ m /\ d = m ++ b) \/ (c = a ++ m /\ b = m ++ d).
Proof.
  revert c. induction a as [|x a IH]; intros c H.
  - exists c. right. split; [reflexivity | exact H].
  - destruct c as [|y c].
    + exists (String x a). left. split; [reflexivity | symmetry; exact H].
    + simpl in H. injection H as -> H.
      destruct (IH _ H) as [m [[-> ->] | [-> ->]]]; exists m; [left | right];
        split; reflexivity.
Qed.

Lemma contains_refl (s : string) : contains s s.
Proof.
  exists "", "". simpl. now rewrite append_nil_r.
Qed.

Lemma contains_empty (s : string) : contains s "".
Proof.
  exists "", s. reflexivity.
Qed.

Lemma contains_app_l (a b sub : string) : contains a sub -> contains (a ++ b) sub.
Proof.
  intros (pre & post & ->). exists pre, (post ++ b).
  now rewrite !append_assoc.
Qed.

Lemma contains_app_r (a b sub : string) : contains b sub -> contains (a ++ b) sub.
Proof.
  intros (pre & post & ->). exists (a ++ pre), post.
  now rewrite !append_assoc.
Qed.

Lemma contains_cons (c : ascii) (s sub : string) :
  contains s sub -> contains (String c s) sub.
Proof.
  apply (contains_app_r (String c "") s).
Qed.

Lemma contains_trans (s mid sub : string) :
  contains s mid -> contains mid sub -> contains s sub.
Proof.
  intros (pre & post & ->) H.
  apply contains_app_r, contains_app_l, H.
Qed.

Lemma starts_nil (s : string) : starts s "".
Proof. now exists s. Qed.

Lemma starts_cons (c : ascii) (s x : string) :
  starts s x -> starts (String c s) (String c x).
Proof. intros (post & ->). now exists post. Qed.

Lemma starts_app (f s x : string) : starts s x -> starts (f ++ s) (f ++ x).
Proof. intros (post & ->). exists post. now rewrite append_assoc. Qed.

Lemma starts_here (f s : string) : starts (f ++ s) f.
Proof. now exists s. Qed.

Lemma starts_refl (s : string) : starts s s.
Proof. exists "". now rewrite append_nil_r. Qed.

Lemma starts_contains (s x : string) : starts s x -> contains s x.
Proof. intros (post & ->). now exists "", post. Qed.

Lemma startsb_starts (s x : string) : startsb s x = true <-> starts s x.
Proof.
  revert s. induction x as [|c x IH]; intros s.
  - split; [intros _; apply starts_nil | now destruct s].
  - destruct s as [|d s]; simpl.
    + split; [discriminate | intros (post & H); discriminate H].
    + rewrite andb_true_iff, Ascii.eqb_eq, IH. split.
      * intros [-> H]. now apply starts_cons.
      * intros (post & H). injection H as -> ->. split; [reflexivity |].
        now exists post.
Qed.

Lemma containsb_contains (s sub : string) :
  containsb s sub = true <-> contains s sub.
Proof.
  induction s as [|c s IH]; cbn [containsb].
  - rewrite orb_false_r, startsb_starts. split.
    + apply starts_contains.
    + intros (pre & post & H). destruct pre; [|discriminate H].
      now exists post.
  - rewrite orb_true_iff, IH, startsb_starts. split.
    + intros [H | H]; [now apply starts_contains | now apply contains_cons].
    + intros (pre & post & H). destruct pre as [|d pre].
      * left. now exists post.
      * right. injection H as _ ->. now exists pre, post.
Qed.

Lemma not_containsb (s sub : string) :
  containsb s sub = false -> ~ contains s sub.
Proof.
  intros H C. apply containsb_contains in C. congruence.
Qed.

Lemma mem_app (c : ascii) (a b : string) :
  mem c (a ++ b) = mem c a || mem c b.
Proof.
  induction a as [|x a IH]; simpl; [reflexivity | now rewrite IH, orb_assoc].
Qed.

(** A string without the character [c] cannot lie across an occurrence of
    [c]: it is found on one side of it. *)
Lemma contains_app_sep (a b sub : string) (c : ascii) :
  mem c sub = false -> sub <> "" ->
  contains (a ++ String c b) sub -> contains a sub \/ contains b sub.
Proof.
  intros Hc Hne (pre & post & H).
  destruct (append_eq_append _ _ _ _ H) as [m [[-> H2] | [-> H2]]].
  - destruct (append_eq_append _ _ _ _ H2) as [n [[-> H3] | [-> H3]]].
    + destruct n as [|d n].
      * left. exists pre, "". now rewrite !append_nil_r.
      * simpl in H3. injection H3 as <- _.
        rewrite mem_app in Hc. simpl in Hc.
        rewrite Ascii.eqb_refl, orb_true_r in Hc. discriminate Hc.
    + left. now exists pre, n.
  - destruct m as [|d m].
    + simpl in H2. destruct sub as [|d sub]; [now elim Hne |].
      simpl in H2. injection H2 as <- _.
      simpl in Hc. rewrite Ascii.eqb_refl in Hc. discriminate Hc.
    + simpl in H2. injection H2 as _ ->. right. now exists m, post.
Qed.

(** The same across a whole text cut at separators. *)
Lemma contains_sep_join (sub : string) (chunks : list (string * ascii))
    (last : string) :
  sub <> "" ->
  forallb (fun xc => negb (mem (snd xc) sub)) chunks = true ->
  contains (sep_join chunks last) sub ->
  Exists (fun x => contains x sub) (map fst chunks ++ [last]).
Proof.
  intros Hne. induction chunks as [|[x c] chunks IH]; simpl; intros Hs H.
  - now constructor.
  - apply andb_true_iff in Hs as [Hc Hs]. apply negb_true_iff in Hc.
    destruct (contains_app_sep _ _ _ _ Hc Hne H) as [Hx | Hr].
    + now constructor.
    + apply Exists_cons_tl. now apply IH.
Qed.

(** Search for an occurrence in a text made of literal characters and
    opaque fields, trying every position from the left. *)
Ltac starts_step :=
  lazymatch goal with
  | |- starts _ EmptyString => apply starts_nil
  | |- starts ?s ?s => apply starts_refl
  | |- starts (String _ _) (String _ _) => apply starts_cons
  | |- starts (?f ++ _) (?f ++ _) => apply starts_app
  | |- starts (?f ++ _) ?f => apply starts_here
  end.

Ltac skip_step :=
  lazymatch goal with
  | |- contains (String _ _) _ => apply contains_cons
  | |- contains (_ ++ _) _ => apply contains_app_r
  end.

Ltac find_sub :=
  repeat first
    [ solve [apply starts_contains; repeat starts_step]
    | skip_step ].

End StrFacts.

(** * The handler *)

Section Properties.

Variable float : Type.
Variable float_repr : float -> string.
Variable str_repr : string -> string.
Variable TOPIC_ARN : string.

Local Notation pyval := (pyval float).
Local Notation py_str := (py_str float_repr str_repr).
Local Notation succeeded_subject := (succeeded_subject float_repr str_repr).
Local Notation succeeded_message := (succeeded_message float_repr str_repr).
Local Notation failed_subject := (failed_subject float_repr str_repr).
Local Notation failed_message := (failed_message float_repr str_repr).
Local Notation handler := (handler float_repr str_repr TOPIC_ARN).

Implicit Types (event detail status job_name job_id region time v : pyval).
Implicit Types (t : trace) (k : string).

(** ** Lookups *)

Lemma getitem_field v k x t :
  field v k = Some x -> getitem v k t = (Returned x, t).
Proof.
  destruct v; simpl; try discriminate. now intros ->.
Qed.

Lemma getitem_absent (d : list (string * pyval)) k t :
  dict_lookup k d = None -> getitem (PDict d) k t = (Raised (KeyError k), t).
Proof.
  simpl. now intros ->.
Qed.

Lemma get_field v k x default t :
  field v k = Some x -> get v k default t = (Returned x, t).
Proof.
  destruct v; simpl; try discriminate. now intros ->.
Qed.

Lemma get_absent (d : list (string * pyval)) k default t :
  dict_lookup k d = None -> get (PDict d) k default t = (Returned default, t).
Proof.
  simpl. now intros ->.
Qed.

Lemma bind_returned {A B} (m : M A) (f : A -> M B) a t t' :
  m t = (Returned a, t') -> bind m f t = f a t'.
Proof.
  unfold bind. now intros ->.
Qed.

Lemma bind_raised {A B} (m : M A) (f : A -> M B) e t t' :
  m t = (Raised e, t') -> bind m f t = (Raised e, t').
Proof.
  unfold bind. now intros ->.
Qed.

Lemma bind_ret {A B} (a : A) (f : A -> M B) t : bind (ret a) f t = f a t.
Proof. reflexivity. Qed.

Lemma bind_bind {A B C} (m : M A) (f : A -> M B) (g : B -> M C) t :
  bind (bind m f) g t = bind m (fun a => bind (f a) g) t.
Proof.
  unfold bind. now destruct (m t) as [[a|e] t'].
Qed.

(** [str] of an int is its decimal notation: it parses back to the int. *)
Lemma int_str_parses (n : Z) :
  option_map Z.of_int (NilZero.int_of_string (int_str n)) = Some n.
Proof.
  unfold int_str. rewrite NilZero.isi.
  - simpl. now rewrite DecimalZ.of_to.
  - destruct n; simpl; try discriminate.
    intros [= H]. now apply (Unsigned.to_uint_nonnil p).
  - destruct n; simpl; try discriminate.
    intros [= H]. now apply (Unsigned.to_uint_nonnil p).
Qed.

Lemma py_eq_str_true v (w : string) : py_eq_str v w = true <-> v = PStr w.
Proof.
  destruct v; simpl; try (split; [discriminate | intros H; discriminate H]).
  rewrite String.eqb_eq. split; [now intros -> | now intros [= ->]].
Qed.

Lemma py_eq_str_false v (w : string) : py_eq_str v w = false <-> v <> PStr w.
Proof.
  rewrite <- py_eq_str_true. now destruct (py_eq_str v w).
Qed.

(** The two [.get] calls of line 17. *)
Lemma exit_code_lookup {B} (d : list (string * pyval)) (f : pyval -> M B) t :
  container_shape (PDict d) = true ->
  bind (get (PDict d) "container" (PDict []))
    (fun container => bind (get container "exitCode" (PStr "N/A")) f) t
  = f (resolved_exit_code (PDict d)) t.
Proof.
  unfold container_shape, resolved_exit_code, exit_code_field. simpl field.
  intros H. destruct (dict_lookup "container" d) as [c|] eqn:Hc.
  - destruct c; try discriminate H.
    rewrite (bind_returned _ _ _ _ _ (get_field (PDict d) _ _ _ _ Hc)).
    simpl field. destruct (dict_lookup "exitCode" items) as [x|] eqn:Hx.
    + now rewrite (bind_returned _ _ _ _ _ (get_field (PDict items) _ _ _ _ Hx)).
    + now rewrite (bind_returned _ _ _ _ _ (get_absent items _ _ _ Hx)).
  - rewrite (bind_returned _ _ _ _ _ (get_absent d _ _ _ Hc)).
    now rewrite (bind_returned _ _ _ _ _ (get_absent [] _ _ _ eq_refl)).
Qed.

(** ** The two templates *)

Import Str StrFacts.

Ltac open_template :=
  unfold Lambda.succeeded_message, Lambda.failed_message,
    Lambda.succeeded_subject, Lambda.failed_subject,
    log_console_link, troubleshooting_link, success_marker, failure_marker,
    lines, nl;
  repeat match goal with
    | |- context [Lambda.py_str ?f ?g (PStr ?x)] =>
        change (Lambda.py_str f g (PStr x)) with x
    end;
  repeat match goal with
    | |- context [Lambda.py_str ?f ?g ?v] =>
        let s := fresh "s" in
        generalize (Lambda.py_str f g v); intros s
    end;
  cbn [append]; rewrite ?append_assoc; cbn [append].

Lemma succeeded_message_contains
    job_name job_id status exit_code region time :
  let body := succeeded_message job_name job_id status exit_code region time in
  contains body ("Job Name: " ++ py_str job_name ++ nl) /\
  contains body ("Job ID: " ++ py_str job_id ++ nl) /\
  contains body ("Status: " ++ py_str status ++ nl) /\
  contains body ("Exit Code: " ++ py_str exit_code ++ nl) /\
  contains body ("Region: " ++ py_str region ++ nl) /\
  contains body ("Completed At: " ++ py_str time ++ nl) /\
  contains body (log_console_link (py_str region)).
Proof.
  cbv zeta. repeat split; open_template; find_sub.
Qed.

Lemma succeeded_subject_contains job_name :
  contains (succeeded_subject job_name) (py_str job_name) /\
  contains (succeeded_subject job_name) success_marker.
Proof.
  split; open_template; find_sub.
Qed.

Lemma failed_subject_contains job_name :
  contains (failed_subject job_name) (py_str job_name) /\
  contains (failed_subject job_name) failure_marker.
Proof.
  split; open_template; find_sub.
Qed.

Lemma failed_message_contains
    job_name job_id status exit_code status_reason region time :
  let body :=
    failed_message job_name job_id status exit_code status_reason region time in
  contains body ("Job Name: " ++ py_str job_name ++ nl) /\
  contains body ("Job ID: " ++ py_str job_id ++ nl) /\
  contains body ("Status: " ++ py_str status ++ nl) /\
  contains body ("Exit Code: " ++ py_str exit_code ++ nl) /\
  contains body ("Reason: " ++ py_str status_reason ++ nl) /\
  contains body ("Region: " ++ py_str region ++ nl) /\
  contains body ("Failed At: " ++ py_str time ++ nl) /\
  contains body (log_console_link (py_str region)) /\
  contains body ("Troubleshooting:" ++ nl ++ troubleshooting_link ++ nl).
Proof.
  cbv zeta. repeat split; open_template; find_sub.
Qed.

Lemma failed_message_sections
    job_name job_id status exit_code status_reason region time :
  let body :=
    failed_message job_name job_id status exit_code status_reason region time in
  startsb body ("❌ AWS Transform Job Failed" ++ nl ++ nl ++ "Job Name: ") = true /\
  contains body (nl ++ nl ++ "View logs:" ++ nl) /\
  contains body (nl ++ nl ++ "Check job status:" ++ nl) /\
  contains body (nl ++ nl ++ "Troubleshooting:" ++ nl).
Proof.
  cbv zeta. split; [reflexivity |]. repeat split; open_template; find_sub.
Qed.

Lemma log_console_link_path (region : string) :
  contains (log_console_link region) log_group_path.
Proof.
  unfold log_console_link, log_group_path. cbn [append]. find_sub.
Qed.

(** Both bodies, cut at the blanks, newlines, [=] and [#] that surround
    their fields. *)
Lemma succeeded_message_chunks
    job_name job_id status exit_code region time :
  succeeded_message job_name job_id status exit_code region time =
  sep_join
    [ ("✅ AWS Transform Job Completed Successfully" ++ nl ++ nl ++ "Job Name:",
        " "%char);
      (py_str job_name, "010"%char);
      ("Job ID:", " "%char); (py_str job_id, "010"%char);
      ("Status:", " "%char); (py_str status, "010"%char);
      ("Exit Code:", " "%char); (py_str exit_code, "010"%char);
      ("Region:", " "%char); (py_str region, "010"%char);
      ("Completed At:", " "%char); (py_str time, "010"%char);
      (nl ++ "View logs:" ++ nl
          ++ "https://console.aws.amazon.com/cloudwatch/home?region", "="%char);
      (py_str region, "#"%char);
      ("logsV2:log-groups/log-group/$252Faws$252Fbatch$252Fatx-transform"
          ++ nl ++ nl ++ "Check job status:" ++ nl
          ++ "aws batch describe-jobs --jobs", " "%char);
      (py_str job_id, " "%char);
      ("--region", " "%char);
      (py_str region, "010"%char) ]
    "".
Proof.
  open_template. unfold sep_join. cbn [append]. reflexivity.
Qed.

Lemma failed_message_chunks
    job_name job_id status exit_code status_reason region time :
  failed_message job_name job_id status exit_code status_reason region time =
  sep_join
    [ ("❌ AWS Transform Job Failed" ++ nl ++ nl ++ "Job Name:", " "%char);
      (py_str job_name, "010"%char);
      ("Job ID:", " "%char); (py_str job_id, "010"%char);
      ("Status:", " "%char); (py_str status, "010"%char);
      ("Exit Code:", " "%char); (py_str exit_code, "010"%char);
      ("Reason:", " "%char); (py_str status_reason, "010"%char);
      ("Region:", " "%char); (py_str region, "010"%char);
      ("Failed At:", " "%char); (py_str time, "010"%char);
      (nl ++ "View logs:" ++ nl
          ++ "https://console.aws.amazon.com/cloudwatch/home?region", "="%char);
      (py_str region, "#"%char);
      ("logsV2:log-groups/log-group/$252Faws$252Fbatch$252Fatx-transform"
          ++ nl ++ nl ++ "Check job status:" ++ nl
          ++ "aws batch describe-jobs --jobs", " "%char);
      (py_str job_id, " "%char);
      ("--region", " "%char);
      (py_str region, "010"%char);
      (nl ++ "Troubleshooting:", "010"%char);
      (troubleshooting_link, "010"%char) ]
    "".
Proof.
  open_template. unfold sep_join. cbn [append]. reflexivity.
Qed.

(** Refute an occurrence [H] in a text cut into chunks: a literal chunk is
    searched by computation, a field is excluded by an assumption. *)
Ltac no_occurrence H :=
  apply contains_sep_join in H; [ | discriminate | reflexivity ];
  cbn [map fst app] in H;
  repeat
    (apply Exists_cons in H; destruct H as [H | H];
     [ first [ contradiction
             | revert H; apply not_containsb; vm_compute; reflexivity ] | ]);
  apply Exists_nil in H; exact H.

(** The success body has the troubleshooting link only if a field of the
    event brings it. *)
Lemma succeeded_message_no_link job_name job_id exit_code region time :
  ~ contains (py_str job_name) troubleshooting_link ->
  ~ contains (py_str job_id) troubleshooting_link ->
  ~ contains (py_str exit_code) troubleshooting_link ->
  ~ contains (py_str region) troubleshooting_link ->
  ~ contains (py_str time) troubleshooting_link ->
  ~ contains
      (succeeded_message job_name job_id (PStr "SUCCEEDED") exit_code region time)
      troubleshooting_link.
Proof.
  intros Hn Hi He Hr Ht H. rewrite succeeded_message_chunks in H.
  no_occurrence H.
Qed.

(** The failure body says "Completed" only if a field of the event does. *)
Lemma failed_message_no_completed
    job_name job_id status exit_code status_reason region time :
  ~ contains (py_str job_name) "Completed" ->
  ~ contains (py_str job_id) "Completed" ->
  ~ contains (py_str status) "Completed" ->
  ~ contains (py_str exit_code) "Completed" ->
  ~ contains (py_str status_reason) "Completed" ->
  ~ contains (py_str region) "Completed" ->
  ~ contains (py_str time) "Completed" ->
  ~ contains
      (failed_message job_name job_id status exit_code status_reason region time)
      "Completed".
Proof.
  intros Hn Hi Hs He Hsr Hr Ht H. rewrite failed_message_chunks in H.
  no_occurrence H.
Qed.

Section Deployment.

(** The SNS service and the Lambda context are arbitrary. *)
Variable sns : trace -> publish_call -> sns_reply float.
Variable lambda_context : Type.
Variable context : lambda_context.

Local Notation handler := (handler sns (lambda_context := lambda_context)).

Lemma publish_run subject message t :
  bind (sns_publish sns TOPIC_ARN subject message)
    (fun _ => ret (PDict [("statusCode", PInt 200)])) t
  = (after_publish (sns t (Publish TOPIC_ARN subject message)),
     (t ++ [Publish TOPIC_ARN subject message])%list).
Proof.
  unfold bind, sns_publish, after_publish.
  now destruct (sns t _).
Qed.

(** The handler on an event that has the required fields: what it does
    up to the branch on [status]. *)
Lemma handler_run event detail status job_name job_id region time t :
  field event "detail" = Some detail ->
  field detail "status" = Some status ->
  field detail "jobName" = Some job_name ->
  field detail "jobId" = Some job_id ->
  field event "region" = Some region ->
  field event "time" = Some time ->
  container_shape detail = true ->
  handler event context t =
    let exit_code := resolved_exit_code detail in
    let c :=
      if py_eq_str status "SUCCEEDED" then
        Publish TOPIC_ARN (succeeded_subject job_name)
          (succeeded_message job_name job_id status exit_code region time)
      else
        Publish TOPIC_ARN (failed_subject job_name)
          (failed_message job_name job_id status exit_code
             (resolved_status_reason detail) region time) in
    (after_publish (sns t c), (t ++ [c])%list).
Proof.
  intros Hd Hs Hn Hi Hr Ht Hc. unfold Lambda.handler.
  rewrite (bind_returned _ _ _ _ _ (getitem_field _ _ _ _ Hd)).
  rewrite (bind_returned _ _ _ _ _ (getitem_field _ _ _ _ Hs)).
  rewrite (bind_returned _ _ _ _ _ (getitem_field _ _ _ _ Hn)).
  rewrite (bind_returned _ _ _ _ _ (getitem_field _ _ _ _ Hi)).
  rewrite (bind_returned _ _ _ _ _ (getitem_field _ _ _ _ Hr)).
  rewrite (bind_returned _ _ _ _ _ (getitem_field _ _ _ _ Ht)).
  destruct detail as [| | | | | |d]; try discriminate Hs.
  rewrite (exit_code_lookup _ _ _ Hc).
  cbv zeta. destruct (py_eq_str status "SUCCEEDED").
  - rewrite bind_ret. apply publish_run.
  - rewrite bind_bind. unfold resolved_status_reason.
    destruct (field (PDict d) "statusReason") as [r|] eqn:Hsr.
    + rewrite (bind_returned _ _ _ _ _ (get_field _ _ _ _ _ Hsr)).
      rewrite bind_ret. apply publish_run.
    + rewrite (bind_returned _ _ _ _ _ (get_absent _ _ _ _ Hsr)).
      rewrite bind_ret. apply publish_run.
Qed.

End Deployment.

(** ** Every run: an exception before the call, or the one call *)

Lemma getitem_cases v k :
  (exists x, field v k = Some x) \/
  (exists e, field v k = None /\ lookup_error e = true /\
             forall t, getitem v k t = (Raised e, t)).
Proof.
  destruct v; try (right; exists TypeError; repeat split; reflexivity).
  simpl. destruct (dict_lookup k items) as [x|].
  - left. now exists x.
  - right. exists (KeyError k). repeat split; reflexivity.
Qed.

(** Line 17 on a [container] that is not an object. *)
Lemma exit_code_lookup_fails {B} detail (f : pyval -> M B) t :
  container_shape detail = false ->
  bind (get detail "container" (PDict []))
    (fun container => bind (get container "exitCode" (PStr "N/A")) f) t
  = (Raised AttributeError, t).
Proof.
  unfold container_shape. intros H.
  destruct (field detail "container") as [c|] eqn:Hc; [|discriminate H].
  rewrite (bind_returned _ _ _ _ _ (get_field _ _ _ _ _ Hc)).
  destruct c; try discriminate H; reflexivity.
Qed.

(** A run with the lookups [Hs] done and the next one raising [e]. *)
Ltac lookup_raises e Hnone Hlook He :=
  left; split;
  [ unfold missing_required, required_fields;
    repeat match goal with
      | H : field _ _ = _ |- _ => rewrite H
      end;
    reflexivity
  | exists e; split; [exact Hlook |];
    intros; unfold Lambda.handler;
    repeat match goal with
      | H : field _ _ = Some _ |- _ =>
          rewrite (bind_returned _ _ _ _ _ (getitem_field _ _ _ _ H))
      end;
    apply bind_raised, He ].

Lemma handler_cases event :
  (missing_required event = true /\
   exists e, lookup_error e = true /\
     forall sns (lambda_context : Type) (context : lambda_context) t,
       handler sns event context t = (Raised e, t)) \/
  (missing_required event = false /\
   forall sns (lambda_context : Type) (context : lambda_context) t,
     handler sns event context t = (Raised AttributeError, t)) \/
  (missing_required event = false /\
   exists subject message,
     forall sns (lambda_context : Type) (context : lambda_context) t,
       publishes sns t (Publish TOPIC_ARN subject message)
         (handler sns event context t)).
Proof.
  destruct (getitem_cases event "detail")
    as [[detail Hd] | (e & Hnone & Hlook & He)];
    [| lookup_raises e Hnone Hlook He].
  destruct (getitem_cases detail "status")
    as [[status Hs] | (e & Hnone & Hlook & He)];
    [| lookup_raises e Hnone Hlook He].
  destruct (getitem_cases detail "jobName")
    as [[job_name Hn] | (e & Hnone & Hlook & He)];
    [| lookup_raises e Hnone Hlook He].
  destruct (getitem_cases detail "jobId")
    as [[job_id Hi] | (e & Hnone & Hlook & He)];
    [| lookup_raises e Hnone Hlook He].
  destruct (getitem_cases event "region")
    as [[region Hr] | (e & Hnone & Hlook & He)];
    [| lookup_raises e Hnone Hlook He].
  destruct (getitem_cases event "time")
    as [[time Ht] | (e & Hnone & Hlook & He)];
    [| lookup_raises e Hnone Hlook He].
  assert (Hreq : missing_required event = false)
    by (unfold missing_required, required_fields;
        now rewrite Hd, Hs, Hn, Hi, Hr, Ht).
  right. destruct (container_shape detail) eqn:Hc.
  - right. split; [exact Hreq |].
    destruct (py_eq_str status "SUCCEEDED") eqn:E;
      eexists _, _; intros; unfold publishes;
      rewrite (handler_run _ _ _ _ _ _ _ _ _ _ _ Hd Hs Hn Hi Hr Ht Hc);
      cbv zeta; rewrite E; reflexivity.
  - left. split; [exact Hreq |]. intros. unfold Lambda.handler.
    rewrite (bind_returned _ _ _ _ _ (getitem_field _ _ _ _ Hd)).
    rewrite (bind_returned _ _ _ _ _ (getitem_field _ _ _ _ Hs)).
    rewrite (bind_returned _ _ _ _ _ (getitem_field _ _ _ _ Hn)).
    rewrite (bind_returned _ _ _ _ _ (getitem_field _ _ _ _ Hi)).
    rewrite (bind_returned _ _ _ _ _ (getitem_field _ _ _ _ Hr)).
    rewrite (bind_returned _ _ _ _ _ (getitem_field _ _ _ _ Ht)).
    now apply exit_code_lookup_fails.
Qed.

(** Every run ends with the trace it started on, or with one call more. *)
Lemma handler_outcomes event :
  (exists e,
     forall sns (lambda_context : Type) (context : lambda_context) t,
       handler sns event context t = (Raised e, t)) \/
  (exists subject message,
     forall sns (lambda_context : Type) (context : lambda_context) t,
       publishes sns t (Publish TOPIC_ARN subject message)
         (handler sns event context t)).
Proof.
  destruct (handler_cases event) as [(_ & e & _ & He) | [(_ & He) | (_ & Hp)]].
  - left. now exists e.
  - left. now exists AttributeError.
  - now right.
Qed.

(** On an object-shaped event the failed lookup is that of a missing key. *)
Lemma missing_field_key_error event :
  event_shape event = true ->
  missing_required event = true ->
  exists k,
    In k required_keys /\
    forall sns (lambda_context : Type) (context : lambda_context) t,
      handler sns event context t = (Raised (KeyError k), t).
Proof.
  unfold event_shape, missing_required, required_fields, required_keys.
  destruct event as [| | | | | |d]; try discriminate.
  cbn [field]. unfold Lambda.handler.
  destruct (dict_lookup "detail" d) as [detail|] eqn:Hd.
  2:{ intros _ _. exists "detail". split; [simpl; tauto |]. intros.
      apply bind_raised, getitem_absent, Hd. }
  destruct detail as [| | | | | |dd]; try discriminate. intros _.
  cbn [field existsb is_absent].
  destruct (dict_lookup "status" dd) as [status|] eqn:Hs.
  2:{ intros _. exists "status". split; [simpl; tauto |]. intros.
      rewrite (bind_returned _ _ _ _ _ (getitem_field (PDict d) _ _ _ Hd)).
      apply bind_raised, getitem_absent, Hs. }
  destruct (dict_lookup "jobName" dd) as [job_name|] eqn:Hn.
  2:{ intros _. exists "jobName". split; [simpl; tauto |]. intros.
      rewrite (bind_returned _ _ _ _ _ (getitem_field (PDict d) _ _ _ Hd)).
      rewrite (bind_returned _ _ _ _ _ (getitem_field (PDict dd) _ _ _ Hs)).
      apply bind_raised, getitem_absent, Hn. }
  destruct (dict_lookup "jobId" dd) as [job_id|] eqn:Hi.
  2:{ intros _. exists "jobId". split; [simpl; tauto |]. intros.
      rewrite (bind_returned _ _ _ _ _ (getitem_field (PDict d) _ _ _ Hd)).
      rewrite (bind_returned _ _ _ _ _ (getitem_field (PDict dd) _ _ _ Hs)).
      rewrite (bind_returned _ _ _ _ _ (getitem_field (PDict dd) _ _ _ Hn)).
      apply bind_raised, getitem_absent, Hi. }
  destruct (dict_lookup "region" d) as [region|] eqn:Hr.
  2:{ intros _. exists "region". split; [simpl; tauto |]. intros.
      rewrite (bind_returned _ _ _ _ _ (getitem_field (PDict d) _ _ _ Hd)).
      rewrite (bind_returned _ _ _ _ _ (getitem_field (PDict dd) _ _ _ Hs)).
      rewrite (bind_returned _ _ _ _ _ (getitem_field (PDict dd) _ _ _ Hn)).
      rewrite (bind_returned _ _ _ _ _ (getitem_field (PDict dd) _ _ _ Hi)).
      apply bind_raised, getitem_absent, Hr. }
  destruct (dict_lookup "time" d) as [time|] eqn:Ht.
  2:{ intros _. exists "time". split; [simpl; tauto |]. intros.
      rewrite (bind_returned _ _ _ _ _ (getitem_field (PDict d) _ _ _ Hd)).
      rewrite (bind_returned _ _ _ _ _ (getitem_field (PDict dd) _ _ _ Hs)).
      rewrite (bind_returned _ _ _ _ _ (getitem_field (PDict dd) _ _ _ Hn)).
      rewrite (bind_returned _ _ _ _ _ (getitem_field (PDict dd) _ _ _ Hi)).
      rewrite (bind_returned _ _ _ _ _ (getitem_field (PDict d) _ _ _ Hr)).
      apply bind_raised, getitem_absent, Ht. }
  discriminate.
Qed.

(** ** The behaviour of the handler *)

Section Behaviour.

Variable sns : trace -> publish_call -> sns_reply float.
Variable lambda_context : Type.
Variable context : lambda_context.

Local Notation handler := (handler sns (lambda_context := lambda_context)).

(** *** Events that carry the required fields *)

Section WellFormed.

Variables event detail status job_name job_id region time : pyval.
Variable t : trace.

Hypothesis Hdetail : field event "detail" = Some detail.
Hypothesis Hstatus : field detail "status" = Some status.
Hypothesis Hname : field detail "jobName" = Some job_name.
Hypothesis Hid : field detail "jobId" = Some job_id.
Hypothesis Hregion : field event "region" = Some region.
Hypothesis Htime : field event "time" = Some time.

Section ContainerShape.

Hypothesis Hcontainer : container_shape detail = true.

(** C1 (as amended): on an event whose [detail.status] is ["SUCCEEDED"] the
    handler publishes a subject that contains the job name and the
    success marker, and a body that contains the job name, the job id,
    ["SUCCEEDED"], the resolved exit code (["N/A"] when absent), the
    region and the timestamp, each under its label.  The body contains
    the troubleshooting link only if one of the interpolated field
    values contains it. *)
Theorem succeeded_notification :
  status = PStr "SUCCEEDED" ->
  exists subject body,
    publishes sns t (Publish TOPIC_ARN subject body)
      (handler event context t) /\
    contains subject (py_str job_name) /\
    contains subject success_marker /\
    contains body ("Job Name: " ++ py_str job_name ++ nl) /\
    contains body ("Job ID: " ++ py_str job_id ++ nl) /\
    contains body ("Status: SUCCEEDED" ++ nl) /\
    contains body
      ("Exit Code: " ++ py_str (resolved_exit_code detail) ++ nl) /\
    contains body ("Region: " ++ py_str region ++ nl) /\
    contains body ("Completed At: " ++ py_str time ++ nl) /\
    (~ contains (py_str job_name) troubleshooting_link ->
     ~ contains (py_str job_id) troubleshooting_link ->
     ~ contains (py_str (resolved_exit_code detail)) troubleshooting_link ->
     ~ contains (py_str region) troubleshooting_link ->
     ~ contains (py_str time) troubleshooting_link ->
     ~ contains body troubleshooting_link).
Proof.
  intros ->.
  exists (succeeded_subject job_name),
    (succeeded_message job_name job_id (PStr "SUCCEEDED")
       (resolved_exit_code detail) region time).
  split.
  { unfold publishes.
    now rewrite (handler_run sns _ context _ _ _ _ _ _ _ t
                   Hdetail Hstatus Hname Hid Hregion Htime Hcontainer). }
  destruct (succeeded_subject_contains job_name) as [S1 S2].
  destruct (succeeded_message_contains job_name job_id (PStr "SUCCEEDED")
              (resolved_exit_code detail) region time)
    as (B1 & B2 & B3 & B4 & B5 & B6 & _).
  repeat split; try assumption.
  apply succeeded_message_no_link.
Qed.

(** C2: on an event whose [detail.status] is anything but ["SUCCEEDED"]
    the handler takes the failure path: the subject contains the
    failure marker, the body contains [detail.statusReason]
    (["Unknown"] when absent) and the troubleshooting link. *)
Theorem failed_notification :
  status <> PStr "SUCCEEDED" ->
  exists subject body,
    publishes sns t (Publish TOPIC_ARN subject body)
      (handler event context t) /\
    contains subject failure_marker /\
    (forall reason, field detail "statusReason" = Some reason ->
       contains body ("Reason: " ++ py_str reason ++ nl)) /\
    (field detail "statusReason" = None ->
       contains body ("Reason: Unknown" ++ nl)) /\
    contains body troubleshooting_link.
Proof.
  intros Hne. apply py_eq_str_false in Hne.
  exists (failed_subject job_name),
    (failed_message job_name job_id status (resolved_exit_code detail)
       (resolved_status_reason detail) region time).
  split.
  { unfold publishes.
    rewrite (handler_run sns _ context _ _ _ _ _ _ _ t
               Hdetail Hstatus Hname Hid Hregion Htime Hcontainer).
    cbv zeta. now rewrite Hne. }
  destruct (failed_subject_contains job_name) as [_ S2].
  destruct (failed_message_contains job_name job_id status
              (resolved_exit_code detail) (resolved_status_reason detail)
              region time)
    as (_ & _ & _ & _ & B5 & _ & _ & _ & B9).
  unfold resolved_status_reason in B5 |- *.
  repeat split; try assumption.
  - intros reason Hr. now rewrite Hr in B5 |- *.
  - intros Hr. now rewrite Hr in B5 |- *.
  - eapply contains_trans; [exact B9 |].
    unfold troubleshooting_link, nl. cbn [append]. find_sub.
Qed.

(** C4: on a well-formed event one invocation makes exactly one publish
    call, with the configured topic, whichever branch is taken; the trace of
    outbound calls grows by that call and nothing else. *)
Theorem one_publish_call :
  exists subject body,
    snd (handler event context t) = (t ++ [Publish TOPIC_ARN subject body])%list /\
    length (snd (handler event context t)) = S (length t).
Proof.
  rewrite (handler_run sns _ context _ _ _ _ _ _ _ t
             Hdetail Hstatus Hname Hid Hregion Htime Hcontainer).
  cbv zeta. destruct (py_eq_str status "SUCCEEDED"); eexists _, _; cbn [snd];
    (split; [reflexivity | rewrite length_app; simpl; lia]).
Qed.

(** C6: on the failure path the subject is the failure template filled with
    the job name; the body is the failure message in its sections (headline,
    fields, "View logs", "Check job status", "Troubleshooting"), with the
    fields of the success body (job name, job id, status, exit code, region,
    timestamp) plus the status reason and the troubleshooting link; it opens
    with the failure headline and says "Completed" nowhere unless a field of
    the event does. *)
Theorem failure_path_message :
  status <> PStr "SUCCEEDED" ->
  exists subject body,
    publishes sns t (Publish TOPIC_ARN subject body) (handler event context t) /\
    subject = failure_marker ++ " AWS Transform Job Failed: " ++ py_str job_name /\
    startsb body (failure_marker ++ " AWS Transform Job Failed" ++ nl ++ nl) = true /\
    contains body ("Job Name: " ++ py_str job_name ++ nl) /\
    contains body ("Job ID: " ++ py_str job_id ++ nl) /\
    contains body ("Status: " ++ py_str status ++ nl) /\
    contains body ("Exit Code: " ++ py_str (resolved_exit_code detail) ++ nl) /\
    contains body ("Reason: " ++ py_str (resolved_status_reason detail) ++ nl) /\
    contains body ("Region: " ++ py_str region ++ nl) /\
    contains body ("Failed At: " ++ py_str time ++ nl) /\
    contains body (nl ++ nl ++ "View logs:" ++ nl) /\
    contains body (nl ++ nl ++ "Check job status:" ++ nl) /\
    contains body ("Troubleshooting:" ++ nl ++ troubleshooting_link ++ nl) /\
    (~ contains (py_str job_name) "Completed" ->
     ~ contains (py_str job_id) "Completed" ->
     ~ contains (py_str status) "Completed" ->
     ~ contains (py_str (resolved_exit_code detail)) "Completed" ->
     ~ contains (py_str (resolved_status_reason detail)) "Completed" ->
     ~ contains (py_str region) "Completed" ->
     ~ contains (py_str time) "Completed" ->
     ~ contains body "Completed").
Proof.
  intros Hne. apply py_eq_str_false in Hne.
  exists (failed_subject job_name),
    (failed_message job_name job_id status (resolved_exit_code detail)
       (resolved_status_reason detail) region time).
  split.
  { unfold publishes.
    rewrite (handler_run sns _ context _ _ _ _ _ _ _ t
               Hdetail Hstatus Hname Hid Hregion Htime Hcontainer).
    cbv zeta. now rewrite Hne. }
  destruct (failed_message_contains job_name job_id status
              (resolved_exit_code detail) (resolved_status_reason detail)
              region time)
    as (B1 & B2 & B3 & B4 & B5 & B6 & B7 & _ & B9).
  destruct (failed_message_sections job_name job_id status
              (resolved_exit_code detail) (resolved_status_reason detail)
              region time)
    as (_ & V1 & V2 & _).
  repeat split; try assumption; try reflexivity.
  apply failed_message_no_completed.
Qed.

(** C7: when [detail.container.exitCode] is absent the exit-code line of the
    body reads "N/A"; when it is present the line carries its value, for an
    integer its decimal digits. *)
Theorem exit_code_rendering :
  exists subject body,
    publishes sns t (Publish TOPIC_ARN subject body) (handler event context t) /\
    (exit_code_field detail = None ->
       contains body (nl ++ "Exit Code: N/A" ++ nl)) /\
    (forall v, exit_code_field detail = Some v ->
       contains body (nl ++ "Exit Code: " ++ py_str v ++ nl)) /\
    (forall n, exit_code_field detail = Some (PInt n) ->
       contains body (nl ++ "Exit Code: " ++ int_str n ++ nl)).
Proof.
  pose proof (handler_run sns _ context _ _ _ _ _ _ _ t
                Hdetail Hstatus Hname Hid Hregion Htime Hcontainer) as Hrun.
  cbv zeta in Hrun. unfold resolved_exit_code in Hrun.
  assert (Hany : forall v, exit_code_field detail = Some v \/
                   (exit_code_field detail = None /\ v = PStr "N/A") ->
            exists subject body,
              publishes sns t (Publish TOPIC_ARN subject body)
                (handler event context t) /\
              contains body (nl ++ "Exit Code: " ++ py_str v ++ nl)).
  { intros v Hv.
    assert (Hec : match exit_code_field detail with
                  | Some x => x | None => PStr "N/A" end = v)
      by (destruct Hv as [-> | [-> ->]]; reflexivity).
    rewrite Hec in Hrun.
    destruct (py_eq_str status "SUCCEEDED"); eexists _, _;
      (split; [exact Hrun | open_template; find_sub]). }
  destruct (exit_code_field detail) as [v|] eqn:Hf.
  - destruct (Hany v (or_introl eq_refl)) as (subject & body & Hp & Hb).
    exists subject, body. split; [exact Hp |]. split; [discriminate |].
    split; [intros v' [= <-]; exact Hb | intros n [= ->]; exact Hb].
  - destruct (Hany (PStr "N/A") (or_intror (conj eq_refl eq_refl)))
      as (subject & body & Hp & Hb).
    exists subject, body. split; [exact Hp |]. split; [intros _; exact Hb |].
    split; intros x Hx; discriminate Hx.
Qed.

(** C8: the log-console link of the body is the fixed URL template with the
    event's region put in verbatim, and it ends in the hardcoded log-group
    path. *)
Theorem log_console_link_in_body :
  exists subject body,
    publishes sns t (Publish TOPIC_ARN subject body) (handler event context t) /\
    contains body
      ("https://console.aws.amazon.com/cloudwatch/home?region=" ++ py_str region
         ++ "#logsV2:log-groups/log-group/$252Faws$252Fbatch$252Fatx-transform") /\
    contains body (nl ++ log_console_link (py_str region) ++ nl) /\
    contains body log_group_path.
Proof.
  pose proof (handler_run sns _ context _ _ _ _ _ _ _ t
                Hdetail Hstatus Hname Hid Hregion Htime Hcontainer) as Hrun.
  cbv zeta in Hrun.
  destruct (py_eq_str status "SUCCEEDED"); eexists _, _;
    (split; [exact Hrun |]);
    (assert (Hl : forall b, contains b (nl ++ log_console_link (py_str region) ++ nl) ->
                 contains b (log_console_link (py_str region)))
       by (intros b Hb; eapply contains_trans;
           [exact Hb | apply contains_app_r, contains_app_l, contains_refl]));
    (match goal with
     | |- _ /\ contains ?b _ /\ _ =>
         assert (Hb : contains b (nl ++ log_console_link (py_str region) ++ nl))
           by (open_template; find_sub)
     end);
    (split; [exact (Hl _ Hb) | split; [exact Hb |]]);
    (eapply contains_trans; [exact (Hl _ Hb) | apply log_console_link_path]).
Qed.

End ContainerShape.

(** C9: when [detail] has no [container] key at all, the two-step lookup of
    the exit code does not raise: it falls back on an empty object, the
    exit-code line reads "N/A", and the only exception the handler can end
    with is one raised by [sns.publish]. *)
Theorem missing_container_is_safe :
  field detail "container" = None ->
  exists subject body,
    publishes sns t (Publish TOPIC_ARN subject body) (handler event context t) /\
    contains body (nl ++ "Exit Code: N/A" ++ nl) /\
    (forall e, fst (handler event context t) = Raised e ->
       exists code, e = ServiceError code).
Proof.
  intros Hnone.
  assert (Hshape : container_shape detail = true)
    by (unfold container_shape; now rewrite Hnone).
  pose proof (handler_run sns _ context _ _ _ _ _ _ _ t
                Hdetail Hstatus Hname Hid Hregion Htime Hshape) as Hrun.
  cbv zeta in Hrun. unfold resolved_exit_code, exit_code_field in Hrun.
  rewrite Hnone in Hrun.
  destruct (py_eq_str status "SUCCEEDED"); eexists _, _;
    (split; [exact Hrun |]);
    (split; [open_template; find_sub |]);
    intros e; rewrite Hrun; cbn [fst]; unfold after_publish;
    (destruct (sns t _); [discriminate | intros [= <-]; now eexists]).
Qed.

End WellFormed.

(** *** Events that lack a required field *)

(** C3: on an event that lacks [detail.status], [detail.jobName],
    [detail.jobId], [region] or [time], the handler ends with the exception
    of the failed lookup, which nothing catches, and the trace of publish
    calls is unchanged: no call is made.  When the event is an object (and its
    [detail], if any, is one) that exception is the [KeyError] of the missing
    key. *)
Theorem missing_field_raises event t :
  missing_required event = true ->
  exists e,
    handler event context t = (Raised e, t) /\
    lookup_error e = true /\
    (event_shape event = true ->
     exists k, In k required_keys /\ e = KeyError k).
Proof.
  intros Hmiss.
  destruct (handler_cases event)
    as [(_ & e & Hlook & He) | [(Hreq & _) | (Hreq & _)]];
    try congruence.
  exists e. split; [apply He |]. split; [exact Hlook |].
  intros Hshape.
  destruct (missing_field_key_error event Hshape Hmiss) as (k & Hin & Hk).
  exists k. split; [exact Hin |].
  specialize (He sns lambda_context context t).
  rewrite (Hk sns lambda_context context t) in He. now injection He as ->.
Qed.

(** *** After the publish call *)

(** C5: whenever the run got past the publish call (the call [c] was made and
    SNS answered, with any response), the handler returns
    [{'statusCode': 200}]; the response has no part in the result. *)
Theorem returns_200_after_publish event t c response :
  snd (handler event context t) = (t ++ [c])%list ->
  sns t c = Delivered response ->
  fst (handler event context t) = Returned status_code_200.
Proof.
  intros Hcall Hreply.
  destruct (handler_outcomes event) as [(e & He) | (subject & message & Hp)].
  - rewrite He in Hcall. cbn [snd] in Hcall.
    apply (f_equal (@length _)) in Hcall.
    rewrite length_app in Hcall. simpl in Hcall. lia.
  - specialize (Hp sns lambda_context context t). unfold publishes in Hp.
    rewrite Hp in Hcall |- *. cbn [fst snd] in *.
    apply app_inv_head in Hcall. injection Hcall as Hc. rewrite Hc.
    now rewrite Hreply.
Qed.

End Behaviour.

(** ** Determinism *)

(** C10: two invocations on the same event, under the same topic, with any
    two contexts, any two traces of earlier calls and any two SNS services,
    take the same branch: they make the same calls (same subject, same body)
    and, if both return, return the same value; when SNS answers both alike,
    they end alike. *)
Theorem handler_deterministic
    (sns1 sns2 : trace -> publish_call -> sns_reply float)
    (context1 context2 : Type) (c1 : context1) (c2 : context2)
    event (t1 t2 : trace) :
  exists calls : list publish_call,
    snd (handler sns1 event c1 t1) = (t1 ++ calls)%list /\
    snd (handler sns2 event c2 t2) = (t2 ++ calls)%list /\
    (forall v1 v2,
       fst (handler sns1 event c1 t1) = Returned v1 ->
       fst (handler sns2 event c2 t2) = Returned v2 -> v1 = v2) /\
    ((forall c, In c calls -> sns1 t1 c = sns2 t2 c) ->
     fst (handler sns1 event c1 t1) = fst (handler sns2 event c2 t2)).
Proof.
  destruct (handler_outcomes event) as [(e & He) | (subject & message & Hp)].
  - exists []. rewrite !He. cbn [fst snd]. rewrite !app_nil_r.
    repeat split; try reflexivity. discriminate.
  - exists [Publish TOPIC_ARN subject message].
    pose proof (Hp sns1 context1 c1 t1) as H1.
    pose proof (Hp sns2 context2 c2 t2) as H2.
    unfold publishes in H1, H2. rewrite H1, H2. cbn [fst snd].
    repeat split; try reflexivity.
    + unfold after_publish. intros v1 v2.
      destruct (sns1 t1 _); [| discriminate].
      destruct (sns2 t2 _); [| discriminate].
      now intros [= <-] [= <-].
    + intros Hsame. now rewrite (Hsame _ (or_introl eq_refl)).
Qed.

(** ** Edge cases, frame and format *)

Lemma length_append (a b : string) :
  String.length (a ++ b) = String.length a + String.length b.
Proof.
  induction a as [|c a IH]; simpl; [reflexivity | now rewrite IH].
Qed.

(** An event with nothing missing has each required field. *)
Lemma required_present event :
  missing_required event = false ->
  exists detail status job_name job_id region time,
    field event "detail" = Some detail /\
    field detail "status" = Some status /\
    field detail "jobName" = Some job_name /\
    field detail "jobId" = Some job_id /\
    field event "region" = Some region /\
    field event "time" = Some time.
Proof.
  unfold missing_required, required_fields. cbn [existsb].
  destruct (field event "detail") as [detail|] eqn:Hd; [| discriminate].
  destruct (field detail "status") as [status|] eqn:Hs; [| discriminate].
  destruct (field detail "jobName") as [job_name|] eqn:Hn; [| discriminate].
  destruct (field detail "jobId") as [job_id|] eqn:Hi; [| discriminate].
  destruct (field event "region") as [region|] eqn:Hr; [| discriminate].
  destruct (field event "time") as [time|] eqn:Ht; [| discriminate].
  intros _. now exists detail, status, job_name, job_id, region, time.
Qed.

(** The success body carries a label of the failure body only if a field of
    the event brings it. *)
Lemma succeeded_message_no_reason job_name job_id exit_code region time :
  ~ contains (py_str job_name) "Reason:" ->
  ~ contains (py_str job_id) "Reason:" ->
  ~ contains (py_str exit_code) "Reason:" ->
  ~ contains (py_str region) "Reason:" ->
  ~ contains (py_str time) "Reason:" ->
  ~ contains
      (succeeded_message job_name job_id (PStr "SUCCEEDED") exit_code region time)
      "Reason:".
Proof.
  intros Hn Hi He Hr Ht H. rewrite succeeded_message_chunks in H.
  no_occurrence H.
Qed.

Lemma succeeded_message_no_troubleshooting
    job_name job_id exit_code region time :
  ~ contains (py_str job_name) "Troubleshooting:" ->
  ~ contains (py_str job_id) "Troubleshooting:" ->
  ~ contains (py_str exit_code) "Troubleshooting:" ->
  ~ contains (py_str region) "Troubleshooting:" ->
  ~ contains (py_str time) "Troubleshooting:" ->
  ~ contains
      (succeeded_message job_name job_id (PStr "SUCCEEDED") exit_code region time)
      "Troubleshooting:".
Proof.
  intros Hn Hi He Hr Ht H. rewrite succeeded_message_chunks in H.
  no_occurrence H.
Qed.

Section EdgeCases.

Variable sns : trace -> publish_call -> sns_reply float.
Variable lambda_context : Type.
Variable context : lambda_context.

Local Notation handler := (handler sns (lambda_context := lambda_context)).

(** X5: for every event the handler keeps the calls made before and adds at
    most one.  It adds one, to the configured topic, exactly on the events
    that have all required fields and a [container] that is an object or
    absent; on every other event it raises and adds none. *)
Theorem publish_iff_well_formed event t :
  if well_formed event then
    exists subject message,
      snd (handler event context t) =
        (t ++ [Publish TOPIC_ARN subject message])%list
  else
    snd (handler event context t) = t /\
    exists e, fst (handler event context t) = Raised e.
Proof.
  unfold well_formed.
  destruct (handler_cases event)
    as [(Hreq & e & _ & He) | [(Hreq & He) | (Hreq & subject & message & Hp)]];
    rewrite Hreq; cbn [negb andb].
  - rewrite He. split; [reflexivity | now exists e].
  - destruct (required_present event Hreq)
      as (detail & status & job_name & job_id & region & time
          & Hd & Hs & Hn & Hi & Hr & Ht).
    rewrite Hd. specialize (He sns lambda_context context t).
    destruct (container_shape detail) eqn:Hc.
    + rewrite (handler_run sns _ context _ _ _ _ _ _ _ t Hd Hs Hn Hi Hr Ht Hc)
        in He.
      cbv zeta in He. injection He as _ He.
      apply (f_equal (@length _)) in He. rewrite length_app in He.
      simpl in He. lia.
    + rewrite He. split; [reflexivity | now exists AttributeError].
  - destruct (required_present event Hreq)
      as (detail & status & job_name & job_id & region & time
          & Hd & Hs & Hn & Hi & Hr & Ht).
    rewrite Hd. specialize (Hp sns lambda_context context t).
    unfold publishes in Hp. destruct (container_shape detail) eqn:Hc.
    + exists subject, message. now rewrite Hp.
    + exfalso. unfold Lambda.handler in Hp.
      rewrite (bind_returned _ _ _ _ _ (getitem_field _ _ _ _ Hd)) in Hp.
      rewrite (bind_returned _ _ _ _ _ (getitem_field _ _ _ _ Hs)) in Hp.
      rewrite (bind_returned _ _ _ _ _ (getitem_field _ _ _ _ Hn)) in Hp.
      rewrite (bind_returned _ _ _ _ _ (getitem_field _ _ _ _ Hi)) in Hp.
      rewrite (bind_returned _ _ _ _ _ (getitem_field _ _ _ _ Hr)) in Hp.
      rewrite (bind_returned _ _ _ _ _ (getitem_field _ _ _ _ Ht)) in Hp.
      rewrite (exit_code_lookup_fails _ _ _ Hc) in Hp.
      injection Hp as _ Hp.
      apply (f_equal (@length _)) in Hp. rewrite length_app in Hp.
      simpl in Hp. lia.
Qed.

(** X6: the handler returns a value only after a publish call that SNS
    accepted, and that value is [{'statusCode': 200}]. *)
Theorem returned_means_delivered event t v :
  fst (handler event context t) = Returned v ->
  v = status_code_200 /\
  exists subject message response,
    snd (handler event context t) =
      (t ++ [Publish TOPIC_ARN subject message])%list /\
    sns t (Publish TOPIC_ARN subject message) = Delivered response.
Proof.
  destruct (handler_outcomes event) as [(e & He) | (subject & message & Hp)].
  - rewrite He. discriminate.
  - specialize (Hp sns lambda_context context t). unfold publishes in Hp.
    rewrite Hp. cbn [fst snd]. unfold after_publish.
    destruct (sns t _) as [response | code] eqn:Hr; [| discriminate].
    intros [= <-]. split; [reflexivity |].
    now exists subject, message, response.
Qed.

(** X2: when SNS rejects the publish call, the exception passes through the
    handler unchanged: no value is returned, and the call stays made. *)
Theorem publish_failure_propagates event t c code :
  snd (handler event context t) = (t ++ [c])%list ->
  sns t c = Rejected code ->
  handler event context t = (Raised (ServiceError code), (t ++ [c])%list).
Proof.
  intros Hcall Hreply.
  destruct (handler_outcomes event) as [(e & He) | (subject & message & Hp)].
  - rewrite He in Hcall. cbn [snd] in Hcall.
    apply (f_equal (@length _)) in Hcall.
    rewrite length_app in Hcall. simpl in Hcall. lia.
  - specialize (Hp sns lambda_context context t). unfold publishes in Hp.
    rewrite Hp in Hcall |- *. cbn [snd] in Hcall.
    apply app_inv_head in Hcall. injection Hcall as Hc. rewrite Hc.
    now rewrite Hreply.
Qed.

(** X3: an event that is not an object, or whose [detail] is present and is
    not an object, makes the handler end with [TypeError] before any publish
    call. *)
Theorem non_object_raises_type_error event t :
  event_shape event = false ->
  handler event context t = (Raised TypeError, t).
Proof.
  unfold event_shape. destruct event as [| | | | | |d]; try reflexivity.
  destruct (dict_lookup "detail" d) as [detail|] eqn:Hd; [| discriminate].
  intros Hshape. unfold Lambda.handler.
  rewrite (bind_returned _ _ _ _ _ (getitem_field (PDict d) _ _ _ Hd)).
  destruct detail; try discriminate Hshape; reflexivity.
Qed.

(** X4: on an object-shaped event the [KeyError] names the first key, in the
    order [detail], [status], [jobName], [jobId], [region], [time], that is
    missing, whatever else is missing after it. *)
Theorem key_error_names_first_missing event t k :
  event_shape event = true ->
  first_missing event = Some k ->
  handler event context t = (Raised (KeyError k), t).
Proof.
  unfold event_shape, first_missing, lookup_order, required_fields.
  destruct event as [| | | | | |d]; try discriminate.
  cbn [field]. unfold Lambda.handler.
  destruct (dict_lookup "detail" d) as [detail|] eqn:Hd.
  2:{ intros _ [= <-]. apply bind_raised, getitem_absent, Hd. }
  destruct detail as [| | | | | |dd]; try discriminate. intros _.
  rewrite (bind_returned _ _ _ _ _ (getitem_field (PDict d) _ _ _ Hd)).
  cbn [field combine find snd is_absent].
  destruct (dict_lookup "status" dd) as [status|] eqn:Hs.
  2:{ intros [= <-]. apply bind_raised, getitem_absent, Hs. }
  rewrite (bind_returned _ _ _ _ _ (getitem_field (PDict dd) _ _ _ Hs)).
  destruct (dict_lookup "jobName" dd) as [job_name|] eqn:Hn.
  2:{ intros [= <-]. apply bind_raised, getitem_absent, Hn. }
  rewrite (bind_returned _ _ _ _ _ (getitem_field (PDict dd) _ _ _ Hn)).
  destruct (dict_lookup "jobId" dd) as [job_id|] eqn:Hi.
  2:{ intros [= <-]. apply bind_raised, getitem_absent, Hi. }
  rewrite (bind_returned _ _ _ _ _ (getitem_field (PDict dd) _ _ _ Hi)).
  destruct (dict_lookup "region" d) as [region|] eqn:Hr.
  2:{ intros [= <-]. apply bind_raised, getitem_absent, Hr. }
  rewrite (bind_returned _ _ _ _ _ (getitem_field (PDict d) _ _ _ Hr)).
  destruct (dict_lookup "time" d) as [time|] eqn:Ht.
  2:{ intros [= <-]. apply bind_raised, getitem_absent, Ht. }
  discriminate.
Qed.


Section WellFormedMore.

Variables event detail status job_name job_id region time : pyval.
Variable t : trace.

Hypothesis Hdetail : field event "detail" = Some detail.
Hypothesis Hstatus : field detail "status" = Some status.
Hypothesis Hname : field detail "jobName" = Some job_name.
Hypothesis Hid : field detail "jobId" = Some job_id.
Hypothesis Hregion : field event "region" = Some region.
Hypothesis Htime : field event "time" = Some time.

(** X1: a [container] that is present and is not an object ([null], a
    number, a string, a list) makes the handler end with [AttributeError]
    before any publish call, although every required field is there. *)
Theorem container_not_object_raises :
  container_shape detail = false ->
  handler event context t = (Raised AttributeError, t).
Proof.
  intros Hc. unfold Lambda.handler.
  rewrite (bind_returned _ _ _ _ _ (getitem_field _ _ _ _ Hdetail)).
  rewrite (bind_returned _ _ _ _ _ (getitem_field _ _ _ _ Hstatus)).
  rewrite (bind_returned _ _ _ _ _ (getitem_field _ _ _ _ Hname)).
  rewrite (bind_returned _ _ _ _ _ (getitem_field _ _ _ _ Hid)).
  rewrite (bind_returned _ _ _ _ _ (getitem_field _ _ _ _ Hregion)).
  rewrite (bind_returned _ _ _ _ _ (getitem_field _ _ _ _ Htime)).
  now apply exit_code_lookup_fails.
Qed.

Hypothesis Hcontainer : container_shape detail = true.

(** X7: subject and body open with the same mark, and the mark tells the
    branch: both begin with the success mark exactly when [status] is
    ["SUCCEEDED"], and with the failure mark exactly when it is not. *)
Theorem marker_tells_branch :
  exists subject body,
    publishes sns t (Publish TOPIC_ARN subject body) (handler event context t) /\
    (startsb subject success_marker = true <-> status = PStr "SUCCEEDED") /\
    (startsb body success_marker = true <-> status = PStr "SUCCEEDED") /\
    (startsb subject failure_marker = true <-> status <> PStr "SUCCEEDED") /\
    (startsb body failure_marker = true <-> status <> PStr "SUCCEEDED").
Proof.
  pose proof (handler_run sns _ context _ _ _ _ _ _ _ t
                Hdetail Hstatus Hname Hid Hregion Htime Hcontainer) as Hrun.
  cbv zeta in Hrun.
  destruct (py_eq_str status "SUCCEEDED") eqn:E; eexists _, _;
    (split; [exact Hrun |]).
  - apply py_eq_str_true in E.
    repeat split; intros H; try exact E; try reflexivity;
      try discriminate H; now elim H.
  - apply py_eq_str_false in E.
    repeat split; intros H; try exact E; try reflexivity;
      try discriminate H; now elim E.
Qed.

(** X8: on both branches the body ends its "Check job status" section with
    the CLI command that names the job id and the region of the event. *)
Theorem cli_command_in_body :
  exists subject body,
    publishes sns t (Publish TOPIC_ARN subject body) (handler event context t) /\
    contains body
      (nl ++ "Check job status:" ++ nl ++ "aws batch describe-jobs --jobs "
          ++ py_str job_id ++ " --region " ++ py_str region ++ nl).
Proof.
  pose proof (handler_run sns _ context _ _ _ _ _ _ _ t
                Hdetail Hstatus Hname Hid Hregion Htime Hcontainer) as Hrun.
  cbv zeta in Hrun.
  destruct (py_eq_str status "SUCCEEDED"); eexists _, _;
    (split; [exact Hrun | open_template; find_sub]).
Qed.

(** X9: the sizes in bytes of what is published are the sizes of the fixed
    text plus those of the fields, the job id counted twice and the region
    three times. *)
Theorem published_sizes :
  exists subject body,
    publishes sns t (Publish TOPIC_ARN subject body) (handler event context t) /\
    (status = PStr "SUCCEEDED" ->
     String.length subject = 33 + String.length (py_str job_name) /\
     String.length body =
       313 + String.length (py_str job_name)
           + 2 * String.length (py_str job_id)
           + String.length (py_str (resolved_exit_code detail))
           + 3 * String.length (py_str region)
           + String.length (py_str time)) /\
    (status <> PStr "SUCCEEDED" ->
     String.length subject = 30 + String.length (py_str job_name) /\
     String.length body =
       434 + String.length (py_str job_name)
           + 2 * String.length (py_str job_id)
           + String.length (py_str status)
           + String.length (py_str (resolved_exit_code detail))
           + String.length (py_str (resolved_status_reason detail))
           + 3 * String.length (py_str region)
           + String.length (py_str time)).
Proof.
  pose proof (handler_run sns _ context _ _ _ _ _ _ _ t
                Hdetail Hstatus Hname Hid Hregion Htime Hcontainer) as Hrun.
  cbv zeta in Hrun.
  destruct (py_eq_str status "SUCCEEDED") eqn:E; eexists _, _;
    (split; [exact Hrun |]).
  - apply py_eq_str_true in E. subst status.
    split; [intros _ | intros H; now elim H].
    split; open_template; cbn [String.length];
      repeat (rewrite length_append; cbn [String.length]); lia.
  - apply py_eq_str_false in E.
    split; [intros H; now elim E | intros _].
    split; open_template; cbn [String.length];
      repeat (rewrite length_append; cbn [String.length]); lia.
Qed.

(** X11: on the success path the body has no "Reason:" and no
    "Troubleshooting:" label, unless a field of the event brings one. *)
Theorem succeeded_body_has_no_failure_labels :
  status = PStr "SUCCEEDED" ->
  exists subject body,
    publishes sns t (Publish TOPIC_ARN subject body) (handler event context t) /\
    (forall label, label = "Reason:" \/ label = "Troubleshooting:" ->
       ~ contains (py_str job_name) label ->
       ~ contains (py_str job_id) label ->
       ~ contains (py_str (resolved_exit_code detail)) label ->
       ~ contains (py_str region) label ->
       ~ contains (py_str time) label ->
       ~ contains body label).
Proof.
  intros ->.
  exists (succeeded_subject job_name),
    (succeeded_message job_name job_id (PStr "SUCCEEDED")
       (resolved_exit_code detail) region time).
  split.
  { unfold publishes.
    now rewrite (handler_run sns _ context _ _ _ _ _ _ _ t
                   Hdetail Hstatus Hname Hid Hregion Htime Hcontainer). }
  intros label [-> | ->].
  - apply succeeded_message_no_reason.
  - apply succeeded_message_no_troubleshooting.
Qed.

End WellFormedMore.

End EdgeCases.

End Properties.

(** * The theorems at concrete events *)

Import Str StrFacts.

(** The end-to-end example of the specification. *)
Example end_to_end :
  exists body,
    Demo.run Demo.sns_ok Demo.succeeded_event =
      (Returned status_code_200,
       [Publish Demo.TOPIC_ARN "✅ AWS Transform Job Completed: job-42" body]) /\
    containsb body "Job ID: abc-123" = true /\
    containsb body "Exit Code: 0" = true /\
    containsb body "Region: us-east-1" = true.
Proof.
  eexists. split; [vm_compute; reflexivity |]. repeat split; vm_compute; reflexivity.
Qed.

Example int_str_examples :
  int_str 0 = "0" /\ int_str 137 = "137" /\ int_str (-9) = "-9".
Proof.
  repeat split; reflexivity.
Qed.

(** C1, at the specification's example event. *)
Lemma succeeded_notification_witness :
  exists subject body,
    Demo.run Demo.sns_ok Demo.succeeded_event =
      (Returned status_code_200, [Publish Demo.TOPIC_ARN subject body]) /\
    contains subject "job-42" /\
    contains body ("Exit Code: 0" ++ nl) /\
    ~ contains body troubleshooting_link.
Proof.
  destruct (succeeded_notification Demo.float Demo.float_repr Demo.str_repr
              Demo.TOPIC_ARN Demo.sns_ok unit tt
              Demo.succeeded_event Demo.succeeded_detail
              (PStr "SUCCEEDED") (PStr "job-42") (PStr "abc-123")
              (PStr "us-east-1") (PStr "2024-01-01T00:00:00Z") [])
    as (subject & body & Hp & S1 & _ & _ & _ & _ & B4 & _ & _ & Hno);
    try reflexivity.
  exists subject, body. split; [exact Hp |]. split; [exact S1 |].
  split; [exact B4 |].
  apply Hno; apply not_containsb; vm_compute; reflexivity.
Defined.

(** C1 as first stated fails: a succeeded job whose name is the
    troubleshooting URL gets a body that contains that URL. *)
Lemma succeeded_body_with_link :
  field Demo.link_named_detail "status" = Some (PStr "SUCCEEDED") /\
  exists subject body,
    Demo.run Demo.sns_ok Demo.link_named_event =
      (Returned status_code_200, [Publish Demo.TOPIC_ARN subject body]) /\
    contains body troubleshooting_link.
Proof.
  split; [reflexivity |].
  eexists _, _. split; [vm_compute; reflexivity |].
  apply containsb_contains. vm_compute. reflexivity.
Qed.

(** C2, at a job reported with the status ["RUNNABLE"] and no reason. *)
Lemma failed_notification_witness :
  exists subject body,
    Demo.run Demo.sns_ok Demo.bare_event =
      (Returned status_code_200, [Publish Demo.TOPIC_ARN subject body]) /\
    contains subject failure_marker /\
    contains body ("Reason: Unknown" ++ nl) /\
    contains body troubleshooting_link.
Proof.
  destruct (failed_notification Demo.float Demo.float_repr Demo.str_repr
              Demo.TOPIC_ARN Demo.sns_ok unit tt
              Demo.bare_event Demo.bare_detail
              (PStr "RUNNABLE") (PStr "job-44") (PStr "abc-125")
              (PStr "us-west-2") (PStr "2024-01-03T00:00:00Z") [])
    as (subject & body & Hp & S1 & _ & B2 & B3);
    try reflexivity; try discriminate.
  exists subject, body. split; [exact Hp |]. split; [exact S1 |].
  split; [apply B2; reflexivity | exact B3].
Defined.

(** C3, at an event without [detail.jobName]. *)
Lemma missing_field_raises_witness :
  exists e,
    Demo.run Demo.sns_ok Demo.nameless_event = (Raised e, []) /\
    lookup_error e = true /\
    (event_shape Demo.nameless_event = true ->
     exists k, In k required_keys /\ e = KeyError k).
Proof.
  apply (missing_field_raises Demo.float Demo.float_repr Demo.str_repr
           Demo.TOPIC_ARN Demo.sns_ok unit tt Demo.nameless_event []).
  reflexivity.
Defined.

(** C4, on both branches. *)
Lemma one_publish_call_witness :
  (exists subject body,
     snd (Demo.run Demo.sns_ok Demo.succeeded_event) =
       ([] ++ [Publish Demo.TOPIC_ARN subject body])%list /\
     length (snd (Demo.run Demo.sns_ok Demo.succeeded_event)) = 1) /\
  (exists subject body,
     snd (Demo.run Demo.sns_down Demo.failed_event) =
       ([] ++ [Publish Demo.TOPIC_ARN subject body])%list /\
     length (snd (Demo.run Demo.sns_down Demo.failed_event)) = 1).
Proof.
  split.
  - apply (one_publish_call Demo.float Demo.float_repr Demo.str_repr
             Demo.TOPIC_ARN Demo.sns_ok unit tt
             Demo.succeeded_event Demo.succeeded_detail
             (PStr "SUCCEEDED") (PStr "job-42") (PStr "abc-123")
             (PStr "us-east-1") (PStr "2024-01-01T00:00:00Z") []);
      reflexivity.
  - apply (one_publish_call Demo.float Demo.float_repr Demo.str_repr
             Demo.TOPIC_ARN Demo.sns_down unit tt
             Demo.failed_event Demo.failed_detail
             (PStr "FAILED") (PStr "job-43") (PStr "abc-124")
             (PStr "eu-west-1") (PStr "2024-01-02T00:00:00Z") []);
      reflexivity.
Defined.

(** C5, at the specification's example event. *)
Lemma returns_200_after_publish_witness :
  fst (Demo.run Demo.sns_ok Demo.succeeded_event) = Returned status_code_200.
Proof.
  apply (returns_200_after_publish Demo.float Demo.float_repr Demo.str_repr
           Demo.TOPIC_ARN Demo.sns_ok unit tt Demo.succeeded_event []
           (Publish Demo.TOPIC_ARN
              (succeeded_subject Demo.float_repr Demo.str_repr (PStr "job-42"))
              (succeeded_message Demo.float_repr Demo.str_repr
                 (PStr "job-42") (PStr "abc-123") (PStr "SUCCEEDED") (PInt 0)
                 (PStr "us-east-1") (PStr "2024-01-01T00:00:00Z")))
           (PDict [("MessageId", PStr "m-1")]));
    reflexivity.
Defined.

(** C6, at a failed job. *)
Lemma failure_path_message_witness :
  exists subject body,
    Demo.run Demo.sns_ok Demo.failed_event =
      (Returned status_code_200, [Publish Demo.TOPIC_ARN subject body]) /\
    subject = failure_marker ++ " AWS Transform Job Failed: job-43" /\
    contains body ("Reason: Essential container in task exited" ++ nl) /\
    contains body ("Exit Code: 1" ++ nl) /\
    ~ contains body "Completed".
Proof.
  destruct (failure_path_message Demo.float Demo.float_repr Demo.str_repr
              Demo.TOPIC_ARN Demo.sns_ok unit tt
              Demo.failed_event Demo.failed_detail
              (PStr "FAILED") (PStr "job-43") (PStr "abc-124")
              (PStr "eu-west-1") (PStr "2024-01-02T00:00:00Z") [])
    as (subject & body & Hp & S & _ & _ & _ & _ & B4 & B5 & _ & _ & _ & _ & _ & Hno);
    try reflexivity; try discriminate.
  exists subject, body. split; [exact Hp |]. split; [exact S |].
  split; [exact B5 |]. split; [exact B4 |].
  apply Hno; apply not_containsb; vm_compute; reflexivity.
Defined.

(** C7, with the exit code 0 and without one. *)
Lemma exit_code_rendering_witness :
  (exists subject body,
     Demo.run Demo.sns_ok Demo.succeeded_event =
       (Returned status_code_200, [Publish Demo.TOPIC_ARN subject body]) /\
     contains body (nl ++ "Exit Code: 0" ++ nl)) /\
  (exists subject body,
     Demo.run Demo.sns_ok Demo.bare_event =
       (Returned status_code_200, [Publish Demo.TOPIC_ARN subject body]) /\
     contains body (nl ++ "Exit Code: N/A" ++ nl)).
Proof.
  split.
  - destruct (exit_code_rendering Demo.float Demo.float_repr Demo.str_repr
                Demo.TOPIC_ARN Demo.sns_ok unit tt
                Demo.succeeded_event Demo.succeeded_detail
                (PStr "SUCCEEDED") (PStr "job-42") (PStr "abc-123")
                (PStr "us-east-1") (PStr "2024-01-01T00:00:00Z") [])
      as (subject & body & Hp & _ & _ & Hint);
      try reflexivity.
    exists subject, body. split; [exact Hp | apply (Hint 0%Z); reflexivity].
  - destruct (exit_code_rendering Demo.float Demo.float_repr Demo.str_repr
                Demo.TOPIC_ARN Demo.sns_ok unit tt
                Demo.bare_event Demo.bare_detail
                (PStr "RUNNABLE") (PStr "job-44") (PStr "abc-125")
                (PStr "us-west-2") (PStr "2024-01-03T00:00:00Z") [])
      as (subject & body & Hp & Hna & _);
      try reflexivity.
    exists subject, body. split; [exact Hp | apply Hna; reflexivity].
Defined.

(** C8, at a failed job in [eu-west-1]. *)
Lemma log_console_link_in_body_witness :
  exists subject body,
    Demo.run Demo.sns_ok Demo.failed_event =
      (Returned status_code_200, [Publish Demo.TOPIC_ARN subject body]) /\
    contains body
      "https://console.aws.amazon.com/cloudwatch/home?region=eu-west-1#logsV2:log-groups/log-group/$252Faws$252Fbatch$252Fatx-transform".
Proof.
  destruct (log_console_link_in_body Demo.float Demo.float_repr Demo.str_repr
              Demo.TOPIC_ARN Demo.sns_ok unit tt
              Demo.failed_event Demo.failed_detail
              (PStr "FAILED") (PStr "job-43") (PStr "abc-124")
              (PStr "eu-west-1") (PStr "2024-01-02T00:00:00Z") [])
    as (subject & body & Hp & B1 & _);
    try reflexivity.
  exists subject, body. split; [exact Hp | exact B1].
Defined.

(** C9, at an event whose [detail] has no [container]. *)
Lemma missing_container_is_safe_witness :
  exists subject body,
    Demo.run Demo.sns_down Demo.bare_event =
      (Raised (ServiceError "ServiceUnavailable"),
       [Publish Demo.TOPIC_ARN subject body]) /\
    contains body (nl ++ "Exit Code: N/A" ++ nl).
Proof.
  destruct (missing_container_is_safe Demo.float Demo.float_repr Demo.str_repr
              Demo.TOPIC_ARN Demo.sns_down unit tt
              Demo.bare_event Demo.bare_detail
              (PStr "RUNNABLE") (PStr "job-44") (PStr "abc-125")
              (PStr "us-west-2") (PStr "2024-01-03T00:00:00Z") [])
    as (subject & body & Hp & B & _);
    try reflexivity.
  exists subject, body. split; [exact Hp | exact B].
Defined.

(** X1, at a job whose [container] is [null]. *)
Lemma container_not_object_raises_witness :
  Demo.run Demo.sns_ok Demo.null_container_event = (Raised AttributeError, []).
Proof.
  apply (container_not_object_raises Demo.float Demo.float_repr Demo.str_repr
           Demo.TOPIC_ARN Demo.sns_ok unit tt
           Demo.null_container_event
           (PDict [ ("status", PStr "FAILED"); ("jobName", PStr "job-45");
                    ("jobId", PStr "abc-127"); ("container", PNone) ])
           (PStr "FAILED") (PStr "job-45") (PStr "abc-127")
           (PStr "us-east-1") (PStr "2024-01-01T00:00:00Z") []);
    reflexivity.
Defined.

(** X2, at a failed job while SNS is down. *)
Lemma publish_failure_propagates_witness :
  exists c,
    Demo.run Demo.sns_down Demo.failed_event =
      (Raised (ServiceError "ServiceUnavailable"), [c]).
Proof.
  eexists.
  apply (publish_failure_propagates Demo.float Demo.float_repr Demo.str_repr
           Demo.TOPIC_ARN Demo.sns_down unit tt Demo.failed_event []);
    reflexivity.
Defined.

(** X3, at an event whose [detail] is a string. *)
Lemma non_object_raises_type_error_witness :
  Demo.run Demo.sns_ok Demo.string_detail_event = (Raised TypeError, []).
Proof.
  apply (non_object_raises_type_error Demo.float Demo.float_repr Demo.str_repr
           Demo.TOPIC_ARN Demo.sns_ok unit tt Demo.string_detail_event []).
  reflexivity.
Defined.

(** X4, at an event without [detail.jobId] and without [time]. *)
Lemma key_error_names_first_missing_witness :
  Demo.run Demo.sns_ok Demo.two_missing_event = (Raised (KeyError "jobId"), []).
Proof.
  apply (key_error_names_first_missing Demo.float Demo.float_repr Demo.str_repr
           Demo.TOPIC_ARN Demo.sns_ok unit tt Demo.two_missing_event []);
    reflexivity.
Defined.

(** X6, at the specification's example event. *)
Lemma returned_means_delivered_witness :
  exists subject message response,
    snd (Demo.run Demo.sns_ok Demo.succeeded_event) =
      ([] ++ [Publish Demo.TOPIC_ARN subject message])%list /\
    Demo.sns_ok [] (Publish Demo.TOPIC_ARN subject message) = Delivered response.
Proof.
  apply (returned_means_delivered Demo.float Demo.float_repr Demo.str_repr
           Demo.TOPIC_ARN Demo.sns_ok unit tt Demo.succeeded_event []
           status_code_200).
  reflexivity.
Defined.

(** X7, at a failed job. *)
Lemma marker_tells_branch_witness :
  exists subject body,
    Demo.run Demo.sns_ok Demo.failed_event =
      (Returned status_code_200, [Publish Demo.TOPIC_ARN subject body]) /\
    startsb subject failure_marker = true /\
    startsb body failure_marker = true.
Proof.
  destruct (marker_tells_branch Demo.float Demo.float_repr Demo.str_repr
              Demo.TOPIC_ARN Demo.sns_ok unit tt
              Demo.failed_event Demo.failed_detail
              (PStr "FAILED") (PStr "job-43") (PStr "abc-124")
              (PStr "eu-west-1") (PStr "2024-01-02T00:00:00Z") [])
    as (subject & body & Hp & _ & _ & Hs & Hb);
    try reflexivity.
  exists subject, body. split; [exact Hp |].
  split; [apply Hs | apply Hb]; discriminate.
Defined.

(** X8, at the specification's example event. *)
Lemma cli_command_in_body_witness :
  exists subject body,
    Demo.run Demo.sns_ok Demo.succeeded_event =
      (Returned status_code_200, [Publish Demo.TOPIC_ARN subject body]) /\
    contains body
      ("aws batch describe-jobs --jobs abc-123 --region us-east-1" ++ nl).
Proof.
  destruct (cli_command_in_body Demo.float Demo.float_repr Demo.str_repr
              Demo.TOPIC_ARN Demo.sns_ok unit tt
              Demo.succeeded_event Demo.succeeded_detail
              (PStr "SUCCEEDED") (PStr "job-42") (PStr "abc-123")
              (PStr "us-east-1") (PStr "2024-01-01T00:00:00Z") [])
    as (subject & body & Hp & B);
    try reflexivity.
  exists subject, body. split; [exact Hp |].
  eapply contains_trans; [exact B |].
  apply containsb_contains. vm_compute. reflexivity.
Defined.

(** X9, at the specification's example event and at a failed job. *)
Lemma published_sizes_witness :
  (exists subject body,
     Demo.run Demo.sns_ok Demo.succeeded_event =
       (Returned status_code_200, [Publish Demo.TOPIC_ARN subject body]) /\
     String.length subject = 39 /\ String.length body = 381) /\
  (exists subject body,
     Demo.run Demo.sns_ok Demo.failed_event =
       (Returned status_code_200, [Publish Demo.TOPIC_ARN subject body]) /\
     String.length subject = 36 /\ String.length body = 542).
Proof.
  split.
  - destruct (published_sizes Demo.float Demo.float_repr Demo.str_repr
                Demo.TOPIC_ARN Demo.sns_ok unit tt
                Demo.succeeded_event Demo.succeeded_detail
                (PStr "SUCCEEDED") (PStr "job-42") (PStr "abc-123")
                (PStr "us-east-1") (PStr "2024-01-01T00:00:00Z") [])
      as (subject & body & Hp & Hs & _);
      try reflexivity.
    exists subject, body. split; [exact Hp |]. exact (Hs eq_refl).
  - destruct (published_sizes Demo.float Demo.float_repr Demo.str_repr
                Demo.TOPIC_ARN Demo.sns_ok unit tt
                Demo.failed_event Demo.failed_detail
                (PStr "FAILED") (PStr "job-43") (PStr "abc-124")
                (PStr "eu-west-1") (PStr "2024-01-02T00:00:00Z") [])
      as (subject & body & Hp & _ & Hf);
      try reflexivity.
    exists subject, body. split; [exact Hp |]. apply Hf. discriminate.
Defined.


(** X11, at the specification's example event. *)
Lemma succeeded_body_has_no_failure_labels_witness :
  exists subject body,
    Demo.run Demo.sns_ok Demo.succeeded_event =
      (Returned status_code_200, [Publish Demo.TOPIC_ARN subject body]) /\
    ~ contains body "Reason:" /\
    ~ contains body "Troubleshooting:".
Proof.
  destruct (succeeded_body_has_no_failure_labels
              Demo.float Demo.float_repr Demo.str_repr
              Demo.TOPIC_ARN Demo.sns_ok unit tt
              Demo.succeeded_event Demo.succeeded_detail
              (PStr "SUCCEEDED") (PStr "job-42") (PStr "abc-123")
              (PStr "us-east-1") (PStr "2024-01-01T00:00:00Z") [])
    as (subject & body & Hp & Hno);
    try reflexivity.
  exists subject, body. split; [exact Hp |].
  split; apply Hno; try (left; reflexivity); try (right; reflexivity);
    apply not_containsb; vm_compute; reflexivity.
Defined.
